(** * pg_duckdb planner bridge: [src/src/pgduckdb_planner.cpp]

    A shallow embedding of [PlanQuery], [DuckdbPrepare], [CreatePlan] and
    [DuckdbPlanNode].  The host (PostgreSQL) and the engine (DuckDB) are
    reached through interfaces; everything the four functions do themselves
    (copying the tree, the search_path override, the EXPLAIN prefix, the
    column loop, the PlannedStmt fields) is written out. *)

From stdpp Require Import base option list strings gmap pretty.

Local Open Scope Z_scope.

(** ** Scalars of the host *)

(** [Oid] is an unsigned 32-bit identifier; [InvalidOid] is 0 and
    [OidIsValid(o)] is [o != InvalidOid] (postgres_ext.h, c.h). *)
Definition Oid : Type := N.
Definition InvalidOid : Oid := 0%N.
Definition OidIsValid (objectId : Oid) : bool := negb (objectId =? InvalidOid)%N.

(** [AttrNumber] is [int16]: an [int] passed where one is expected is
    reduced modulo 2^16 into the signed range. *)
Definition AttrNumber_of_int (z : Z) : Z := (z + 32768) mod 65536 - 32768.

(** [INDEX_VAR] of primnodes.h for the host versions the file builds
    against (it fills [permInfos], a field of PostgreSQL 16 and later). *)
Definition INDEX_VAR : Z := -3.

(** Flags of [pull_var_clause] (optimizer/optimizer.h). *)
Definition PVC_RECURSE_AGGREGATES : Z := 2.
Definition PVC_RECURSE_WINDOWFUNCS : Z := 8.
Definition PVC_RECURSE_PLACEHOLDERS : Z := 32.

Inductive CmdType :=
  | CMD_UNKNOWN | CMD_SELECT | CMD_UPDATE | CMD_INSERT | CMD_DELETE
  | CMD_MERGE | CMD_UTILITY | CMD_NOTHING.

(** Only [CMDTAG_EXPLAIN] is ever compared against. *)
Inductive CommandTag :=
  | CMDTAG_EXPLAIN
  | CMDTAG_OTHER (tag : N).

Global Instance CommandTag_eq_dec : EqDecision CommandTag.
Proof. solve_decision. Defined.

Inductive ElogLevel := DEBUG2 | WARNING | ERROR.

Record PortalData := { commandTag : CommandTag }.

(** The fields of a [pg_type] row that [CreatePlan] reads. *)
Record Form_pg_type := { typtypmod : Z; typcollation : Oid }.

(** A [Var] as [makeVar] fills it. *)
Record Var := {
  varno : Z;
  varattno : Z;
  vartype : Oid;
  vartypmod : Z;
  varcollid : Oid;
  varlevelsup : N
}.

Definition makeVar (varno varattno : Z) (vartype : Oid) (vartypmod : Z)
    (varcollid : Oid) (varlevelsup : N) : Var :=
  {| varno := varno; varattno := AttrNumber_of_int varattno;
     vartype := vartype; vartypmod := vartypmod;
     varcollid := varcollid; varlevelsup := varlevelsup |}.

Record TargetEntry := {
  expr : Var;
  resno : Z;
  resname : string;
  resjunk : bool
}.

Definition makeTargetEntry (expr : Var) (resno : Z) (resname : string)
    (resjunk : bool) : TargetEntry :=
  {| expr := expr; resno := AttrNumber_of_int resno;
     resname := resname; resjunk := resjunk |}.

(** Pointers to palloc'd query trees. *)
Definition QueryPtr : Type := positive.

(** ** The types the bridge only passes around *)

Class BridgeTypes := {
  Node : Type;            (* host expression and statement nodes *)
  RangeTblEntry : Type;
  ParamListInfo : Type;
  PlannerInfo : Type;
  LogicalType : Type;     (* engine type descriptor *)
  Connection : Type       (* engine session *)
}.

Section Structures.
Context {BT : BridgeTypes}.

Record FromExpr := { quals : Node }.

(** The fields of [Query] that the planner bridge reads.  [targetList] is
    the list node itself, which the source casts to [Node *]; [jointree]
    may be a null pointer. *)
Record Query := {
  commandType : CmdType;
  queryId : N;
  canSetTag : bool;
  utilityStmt : option Node;
  hasModifyingCTE : bool;
  rtable : list RangeTblEntry;
  jointree : option FromExpr;
  targetList : Node;
  returningList : list Node;
  stmt_location : Z;
  stmt_len : Z
}.

Record PlannerGlobal := {
  boundParams : ParamListInfo;
  glob_subplans : list Node;
  glob_subroots : list PlannerInfo;
  glob_rewindPlanIDs : list Z;
  finalrtable : list RangeTblEntry;
  finalrteperminfos : list Node;
  finalrowmarks : list Node;
  glob_resultRelations : list Z;
  glob_appendRelations : list Node;
  glob_relationOids : list Oid;
  glob_invalItems : list Node;
  glob_paramExecTypes : list Oid;
  lastPHId : N;
  lastRowMarkId : N;
  lastPlanNodeId : Z;
  glob_transientPlan : bool;
  glob_dependsOnRole : bool
}.

(** The engine's prepared statement: an error state and the ordered
    result columns, read through [HasError]/[GetError] and
    [GetTypes]/[GetNames]. *)
Record PreparedStatement := {
  error : option string;
  columns : list (LogicalType * string)
}.

Definition HasError (p : PreparedStatement) : bool := bool_decide (is_Some (error p)).
Definition GetError (p : PreparedStatement) : string := default EmptyString (error p).
Definition GetTypes (p : PreparedStatement) : list LogicalType := (columns p).*1.
Definition GetNames (p : PreparedStatement) : list string := (columns p).*2.

Inductive CustomScanMethods := duckdb_scan_scan_methods.

(** [makeNode(CustomScan)] zero-fills; the three fields the source
    assigns are kept.  [custom_private] holds the caller's pointer. *)
Record CustomScan := {
  custom_scan_tlist : list TargetEntry;
  custom_private : list QueryPtr;
  methods : option CustomScanMethods
}.

Record PlannedStmt := {
  ps_commandType : CmdType;
  ps_queryId : N;
  hasReturning : bool;
  ps_hasModifyingCTE : bool;
  ps_canSetTag : bool;
  transientPlan : bool;
  dependsOnRole : bool;
  parallelModeNeeded : bool;
  planTree : CustomScan;
  ps_rtable : list RangeTblEntry;
  permInfos : list Node;
  resultRelations : list Z;
  appendRelations : list Node;
  subplans : list Node;
  rewindPlanIDs : list Z;
  rowMarks : list Node;
  relationOids : list Oid;
  invalItems : list Node;
  paramExecTypes : list Oid;
  ps_utilityStmt : option Node;
  ps_stmt_location : Z;
  ps_stmt_len : Z
}.

(** What the engine adapter was handed, in call order. *)
Inductive EngineCall :=
  | CallCreateConnection (rtables : list RangeTblEntry) (root : PlannerInfo)
      (vars : list Var) (query_string : string)
  | CallPrepare (conn : Connection) (query_string : string).

(** ** Process state

    The heap of query trees, the [search_path] setting with the GUC
    nesting machinery of guc.c, the two globals [ActivePortal] and
    [duckdb_explain_analyze], the type catalog, and what was emitted. *)
Record World := {
  heap : gmap positive Query;
  search_path : string;
  GUCNestLevel : nat;
  search_path_stack : list (nat * string);
  ActivePortal : option PortalData;
  duckdb_explain_analyze : bool;
  pg_type : gmap N Form_pg_type;
  elog_out : list (ElogLevel * string);
  engine_calls : list EngineCall
}.

(** A call returns, leaves through [elog(ERROR)] (a non-local exit that
    keeps the state reached so far), or dereferences a pointer that is
    not allocated. *)
Inductive outcome (A : Type) :=
  | Ret (a : A) (w : World)
  | Throw (w : World)
  | Fault.
Global Arguments Ret {A} a w.
Global Arguments Throw {A} w.
Global Arguments Fault {A}.

Definition PG (A : Type) : Type := World → outcome A.

Global Instance PG_ret : MRet PG := λ A a w, Ret a w.
Global Instance PG_bind : MBind PG := λ A B f m w,
  match m w with
  | Ret a w' => f a w'
  | Throw w' => Throw w'
  | Fault => Fault
  end.

Definition get : PG World := λ w, Ret w w.
Definition put (w' : World) : PG () := λ _, Ret () w'.
Definition throw {A} : PG A := λ w, Throw w.
Definition fault {A} : PG A := λ _, Fault.

(** The state an outcome ends in, when there is one. *)
Definition final_world {A} (o : outcome A) : option World :=
  match o with
  | Ret _ w | Throw w => Some w
  | Fault => None
  end.

End Structures.

(** ** The collaborators

    Functions of the host and of the engine that the bridge calls and that
    live outside pgduckdb_planner.cpp.  The deparser is given the [search_path] in
    force when it runs; it and [subquery_planner] may raise a host error
    ([None]).  [subquery_planner] rewrites the tree it is given in place,
    so it returns the tree it leaves behind. *)
Class BridgeOps {BT : BridgeTypes} := {
  pgduckdb_pg_get_querydef : Query → bool → string → option string;
  pull_var_clause : Node → Z → list Var;
  subquery_planner : PlannerGlobal → Query → Query * option PlannerInfo;
  GetPostgresDuckDBType : LogicalType → Oid;
  DuckdbCreateConnection :
    list RangeTblEntry → PlannerInfo → list Var → string → Connection;
  Prepare : Connection → string → PreparedStatement
}.

Section Planner.
Context {BT : BridgeTypes} {BO : BridgeOps}.

(** *** State updates *)

Definition with_heap (h : gmap positive Query) (w : World) : World :=
  {| heap := h; search_path := search_path w; GUCNestLevel := GUCNestLevel w;
     search_path_stack := search_path_stack w; ActivePortal := ActivePortal w;
     duckdb_explain_analyze := duckdb_explain_analyze w; pg_type := pg_type w;
     elog_out := elog_out w; engine_calls := engine_calls w |}.

Definition with_guc (value : string) (level : nat) (stack : list (nat * string))
    (w : World) : World :=
  {| heap := heap w; search_path := value; GUCNestLevel := level;
     search_path_stack := stack; ActivePortal := ActivePortal w;
     duckdb_explain_analyze := duckdb_explain_analyze w; pg_type := pg_type w;
     elog_out := elog_out w; engine_calls := engine_calls w |}.

Definition with_elog (out : list (ElogLevel * string)) (w : World) : World :=
  {| heap := heap w; search_path := search_path w; GUCNestLevel := GUCNestLevel w;
     search_path_stack := search_path_stack w; ActivePortal := ActivePortal w;
     duckdb_explain_analyze := duckdb_explain_analyze w; pg_type := pg_type w;
     elog_out := out; engine_calls := engine_calls w |}.

Definition with_engine_calls (calls : list EngineCall) (w : World) : World :=
  {| heap := heap w; search_path := search_path w; GUCNestLevel := GUCNestLevel w;
     search_path_stack := search_path_stack w; ActivePortal := ActivePortal w;
     duckdb_explain_analyze := duckdb_explain_analyze w; pg_type := pg_type w;
     elog_out := elog_out w; engine_calls := calls |}.

(** *** Host primitives *)

(** [elog] below [ERROR] appends to the log and returns; at [ERROR] it
    does not return. *)
Definition elog (elevel : ElogLevel) (msg : string) : PG () := λ w,
  let w' := with_elog (elog_out w ++ [(elevel, msg)]) w in
  match elevel with
  | ERROR => Throw w'
  | _ => Ret () w'
  end.

Definition deref (p : QueryPtr) : PG Query := λ w,
  match heap w !! p with
  | Some tree => Ret tree w
  | None => Fault
  end.

Definition store (p : QueryPtr) (tree : Query) : PG () := λ w,
  Ret () (with_heap (<[p := tree]> (heap w)) w).

(** [copyObjectImpl]: a deep copy at a fresh address. *)
Definition copyObjectImpl (from : QueryPtr) : PG QueryPtr :=
  tree ← deref from;
  w ← get;
  let p := fresh (dom (heap w)) in
  store p tree;;
  mret p.

(** [NewGUCNestLevel]: [return ++GUCNestLevel]. *)
Definition NewGUCNestLevel : PG nat := λ w,
  let level := S (GUCNestLevel w) in
  Ret level (with_guc (search_path w) level (search_path_stack w) w).

(** [SetConfigOption(name, value, PGC_USERSET, PGC_S_SESSION)] for the one
    setting the bridge touches.  Inside a nest level the prior value is
    pushed, unless the top entry already belongs to this level or a
    deeper one (guc.c, push_old_value). *)
Definition SetConfigOption (name value : string) : PG () := λ w,
  if decide (name = "search_path") then
    let stack :=
      if decide (GUCNestLevel w = 0%nat) then search_path_stack w
      else match search_path_stack w with
           | (l, _) :: _ =>
               if decide (GUCNestLevel w ≤ l)%nat then search_path_stack w
               else (GUCNestLevel w, search_path w) :: search_path_stack w
           | [] => [(GUCNestLevel w, search_path w)]
           end in
    Ret () (with_guc value (GUCNestLevel w) stack w)
  else Ret () w.

(** Entries of [nestLevel] or deeper are popped, each restoring its
    prior value. *)
Fixpoint unwind_stack (nestLevel : nat) (value : string) (stack : list (nat * string))
    : string * list (nat * string) :=
  match stack with
  | (l, prior) :: rest =>
      if decide (nestLevel ≤ l)%nat then unwind_stack nestLevel prior rest
      else (value, stack)
  | [] => (value, [])
  end.

(** [AtEOXact_GUC(false, nestLevel)]: roll back to before [nestLevel]. *)
Definition AtEOXact_GUC_rollback (nestLevel : nat) : PG () := λ w,
  let '(value, stack) := unwind_stack nestLevel (search_path w) (search_path_stack w) in
  Ret () (with_guc value (pred nestLevel) stack w).

(** The deparser, run on the tree behind [query] under the current
    [search_path]. *)
Definition call_pg_get_querydef (query : QueryPtr) (pretty : bool) : PG string :=
  tree ← deref query;
  w ← get;
  match pgduckdb_pg_get_querydef tree pretty (search_path w) with
  | Some text => mret text
  | None => throw
  end.

Definition call_DuckdbCreateConnection (rtables : list RangeTblEntry)
    (root : PlannerInfo) (vars : list Var) (query_string : string) : PG Connection := λ w,
  Ret (DuckdbCreateConnection rtables root vars query_string)
      (with_engine_calls
         (engine_calls w ++ [CallCreateConnection rtables root vars query_string]) w).

Definition call_Prepare (conn : Connection) (query_string : string)
    : PG PreparedStatement := λ w,
  Ret (Prepare conn query_string)
      (with_engine_calls (engine_calls w ++ [CallPrepare conn query_string]) w).

Definition list_concat {A} (list1 list2 : list A) : list A := list1 ++ list2.
Definition lappend {A} (l : list A) (datum : A) : list A := l ++ [datum].
Definition list_make1 {A} (x1 : A) : list A := [x1].

(** [psprintf] with one [%s] directive and with one [%u] directive. *)
Definition psprintf_s (prefix arg : string) : string := prefix +:+ arg.
Definition psprintf_u (prefix : string) (arg : N) : string := prefix +:+ pretty arg.

(** ** The planner bridge *)

Definition PlanQuery (parse : QueryPtr) (bound_params : ParamListInfo) : PG PlannerInfo :=
  let glob :=
    {| boundParams := bound_params;
       glob_subplans := [];
       glob_subroots := [];
       glob_rewindPlanIDs := [];
       finalrtable := [];
       finalrteperminfos := [];
       finalrowmarks := [];
       glob_resultRelations := [];
       glob_appendRelations := [];
       glob_relationOids := [];
       glob_invalItems := [];
       glob_paramExecTypes := [];
       lastPHId := 0%N;
       lastRowMarkId := 0%N;
       lastPlanNodeId := 0;
       glob_transientPlan := false;
       glob_dependsOnRole := false |} in
  tree ← deref parse;
  let '(tree', root) := subquery_planner glob tree in
  store parse tree';;
  match root with
  | Some root => mret root
  | None => throw
  end.

(** The wrapping applied when the active portal runs EXPLAIN. *)
Definition explain_wrap (w : World) (query_string : string) : string :=
  match ActivePortal w with
  | Some portal =>
      if decide (commandTag portal = CMDTAG_EXPLAIN) then
        if duckdb_explain_analyze w
        then psprintf_s "EXPLAIN ANALYZE " query_string
        else psprintf_s "EXPLAIN " query_string
      else query_string
  | None => query_string
  end.

Definition pull_flags : Z :=
  Z.lor (Z.lor PVC_RECURSE_AGGREGATES PVC_RECURSE_WINDOWFUNCS) PVC_RECURSE_PLACEHOLDERS.

Definition DuckdbPrepare (query : QueryPtr) (bound_params : ParamListInfo)
    : PG (PreparedStatement * Connection) :=
  copied_query ← copyObjectImpl query;
  save_nestlevel ← NewGUCNestLevel;
  SetConfigOption "search_path" "";;
  query_string ← call_pg_get_querydef copied_query false;
  AtEOXact_GUC_rollback save_nestlevel;;
  w ← get;
  let query_string := explain_wrap w query_string in
  elog DEBUG2 (psprintf_s "(PGDuckDB/DuckdbPrepare) Preparing: " query_string);;
  copied ← deref copied_query;
  let rtables := rtable copied in
  let flags := pull_flags in
  match jointree copied with
  | None => fault
  | Some jt =>
      let vars := list_concat (pull_var_clause (targetList copied) flags)
                              (pull_var_clause (quals jt) flags) in
      query_planner_info ← PlanQuery copied_query bound_params;
      duckdb_connection ←
        call_DuckdbCreateConnection rtables query_planner_info vars query_string;
      prepared_query ← call_Prepare duckdb_connection query_string;
      mret (prepared_query, duckdb_connection)
  end.

(** The column loop of [CreatePlan]: [i] is the loop index, [types] the
    result types from position [i] on, [tlist] the target list built so
    far.  [None] is the early [return nullptr]. *)
Fixpoint CreatePlan_columns (prepared_query : PreparedStatement)
    (types : list LogicalType) (i : nat) (tlist : list TargetEntry)
    : PG (option (list TargetEntry)) :=
  match types with
  | [] => mret (Some tlist)
  | column :: types' =>
      let postgresColumnOid := GetPostgresDuckDBType column in
      if negb (OidIsValid postgresColumnOid) then
        elog WARNING
          (psprintf_u "(PGDuckDB/CreatePlan) Cache lookup failed for type "
             postgresColumnOid);;
        mret None
      else
        w ← get;
        match pg_type w !! postgresColumnOid with
        | None =>
            elog WARNING
              (psprintf_u "(PGDuckDB/CreatePlan) Cache lookup failed for type "
                 postgresColumnOid);;
            mret None
        | Some typtup =>
            let var := makeVar INDEX_VAR (Z.of_nat i + 1) postgresColumnOid
                         (typtypmod typtup) (typcollation typtup) 0 in
            match GetNames prepared_query !! i with
            | None => fault
            | Some name =>
                CreatePlan_columns prepared_query types' (S i)
                  (lappend tlist (makeTargetEntry var (Z.of_nat i + 1) name false))
            end
        end
  end.

Definition CreatePlan (query : QueryPtr) (bound_params : ParamListInfo)
    : PG (option CustomScan) :=
  prepare_result ← DuckdbPrepare query bound_params;
  let prepared_query := prepare_result.1 in
  if HasError prepared_query then
    elog WARNING
      (psprintf_s "(PGDuckDB/CreatePlan) Prepared query returned an error: '"
         (GetError prepared_query));;
    mret None
  else
    let prepared_result_types := GetTypes prepared_query in
    tlist ← CreatePlan_columns prepared_query prepared_result_types 0 [];
    match tlist with
    | None => mret None
    | Some tlist =>
        mret (Some {| custom_scan_tlist := tlist;
                      custom_private := list_make1 query;
                      methods := Some duckdb_scan_scan_methods |})
    end.

Definition DuckdbPlanNode (parse : QueryPtr) (cursor_options : Z)
    (bound_params : ParamListInfo) : PG (option PlannedStmt) :=
  duckdb_plan ← CreatePlan parse bound_params;
  match duckdb_plan with
  | None => mret None
  | Some duckdb_plan =>
      tree ← deref parse;
      mret (Some
        {| ps_commandType := commandType tree;
           ps_queryId := queryId tree;
           hasReturning := bool_decide (returningList tree ≠ []);
           ps_hasModifyingCTE := hasModifyingCTE tree;
           ps_canSetTag := canSetTag tree;
           transientPlan := false;
           dependsOnRole := false;
           parallelModeNeeded := false;
           planTree := duckdb_plan;
           ps_rtable := [];
           permInfos := [];
           resultRelations := [];
           appendRelations := [];
           subplans := [];
           rewindPlanIDs := [];
           rowMarks := [];
           relationOids := [];
           invalItems := [];
           paramExecTypes := [];
           ps_utilityStmt := utilityStmt tree;
           ps_stmt_location := stmt_location tree;
           ps_stmt_len := stmt_len tree |})
  end.

End Planner.

(** * Vocabulary for the properties *)

Section Observations.
Context {BT : BridgeTypes} {BO : BridgeOps}.
Implicit Types (w : World) (tree : Query) (query parse : QueryPtr).

(** The [PlannerGlobal] that [PlanQuery] fills in. *)
Definition planner_glob (bound_params : ParamListInfo) : PlannerGlobal :=
  {| boundParams := bound_params; glob_subplans := []; glob_subroots := [];
     glob_rewindPlanIDs := []; finalrtable := []; finalrteperminfos := [];
     finalrowmarks := []; glob_resultRelations := []; glob_appendRelations := [];
     glob_relationOids := []; glob_invalItems := []; glob_paramExecTypes := [];
     lastPHId := 0%N; lastRowMarkId := 0%N; lastPlanNodeId := 0;
     glob_transientPlan := false; glob_dependsOnRole := false |}.

(** The address [copyObjectImpl] hands out in [w]. *)
Definition copy_addr w : QueryPtr := fresh (dom (heap w)).

(** The state after the copy and the override of [search_path]. *)
Definition world_overridden w tree : World :=
  let w1 := with_heap (<[copy_addr w := tree]> (heap w)) w in
  let level := S (GUCNestLevel w) in
  let stack :=
    match search_path_stack w with
    | (l, _) :: _ =>
        if decide (level ≤ l)%nat then search_path_stack w
        else (level, search_path w) :: search_path_stack w
    | [] => [(level, search_path w)]
    end in
  with_guc "" level stack w1.

(** The state after the roll-back of the override. *)
Definition world_rolled_back w tree : World :=
  let w2 := world_overridden w tree in
  let '(value, stack) :=
    unwind_stack (S (GUCNestLevel w)) (search_path w2) (search_path_stack w2) in
  with_guc value (GUCNestLevel w) stack w2.

(** The state after the debug line. *)
Definition world_logged w tree (text : string) : World :=
  let w3 := world_rolled_back w tree in
  with_elog
    (elog_out w ++
       [(DEBUG2, "(PGDuckDB/DuckdbPrepare) Preparing: " +:+ explain_wrap w text)]) w3.

(** The state after [subquery_planner] has rewritten the copy into
    [tree']. *)
Definition world_planned w tree (text : string) (tree' : Query) : World :=
  let w4 := world_logged w tree text in
  with_heap (<[copy_addr w := tree']> (heap w4)) w4.

(** The state after the two engine calls. *)
Definition world_prepared w tree (text : string) (tree' : Query)
    (calls : list EngineCall) : World :=
  let w5 := world_planned w tree text tree' in
  with_engine_calls (engine_calls w ++ calls) w5.

(** One run of [DuckdbPrepare] on a valid pointer, case by case. *)
Definition DuckdbPrepare_run query (bound_params : ParamListInfo) w tree
    : outcome (PreparedStatement * Connection) :=
  match pgduckdb_pg_get_querydef tree false "" with
  | None => Throw (world_overridden w tree)
  | Some text =>
      let query_string := explain_wrap w text in
      match jointree tree with
      | None => Fault
      | Some jt =>
          let vars := pull_var_clause (targetList tree) pull_flags ++
                      pull_var_clause (quals jt) pull_flags in
          match subquery_planner (planner_glob bound_params) tree with
          | (tree', None) => Throw (world_planned w tree text tree')
          | (tree', Some root) =>
              let conn := DuckdbCreateConnection (rtable tree) root vars query_string in
              Ret (Prepare conn query_string, conn)
                  (world_prepared w tree text tree'
                     [CallCreateConnection (rtable tree) root vars query_string;
                      CallPrepare conn query_string])
          end
      end
  end.

(** Every saved [search_path] entry belongs to a nest level that is
    still open (the invariant guc.c keeps). *)
Definition guc_consistent w : Prop :=
  match search_path_stack w with
  | (l, _) :: _ => (l ≤ GUCNestLevel w)%nat
  | [] => True
  end.

(** A result type the column loop rejects: its host type is the invalid
    sentinel, or the catalog has no row for it. *)
Definition unmapped w (t : LogicalType) : Prop :=
  OidIsValid (GetPostgresDuckDBType t) = false ∨
  pg_type w !! GetPostgresDuckDBType t = None.

Global Instance unmapped_dec w t : Decision (unmapped w t).
Proof. unfold unmapped. apply _. Defined.

(** A result type the column loop accepts. *)
Definition usable w (t : LogicalType) : Prop :=
  OidIsValid (GetPostgresDuckDBType t) = true ∧
  is_Some (pg_type w !! GetPostgresDuckDBType t).

Definition lookup_failed_msg (o : Oid) : string :=
  "(PGDuckDB/CreatePlan) Cache lookup failed for type " +:+ pretty o.

Definition prepare_error_msg (e : string) : string :=
  "(PGDuckDB/CreatePlan) Prepared query returned an error: '" +:+ e.

(** [w] with one more warning in the log. *)
Definition warned (msg : string) w : World :=
  with_elog (elog_out w ++ [(WARNING, msg)]) w.

(** The schema entry the loop builds for column [i]. *)
Definition schema_entry (i : nat) (o : Oid) (typtup : Form_pg_type) (name : string)
    : TargetEntry :=
  makeTargetEntry
    (makeVar INDEX_VAR (Z.of_nat i + 1) o (typtypmod typtup) (typcollation typtup) 0)
    (Z.of_nat i + 1) name false.

(** The node [CreatePlan] returns around a finished target list. *)
Definition duckdb_node query (tlist : list TargetEntry) : CustomScan :=
  {| custom_scan_tlist := tlist; custom_private := [query];
     methods := Some duckdb_scan_scan_methods |}.

(** The statement [DuckdbPlanNode] builds from the caller's tree and the
    plan node. *)
Definition packaged tree (duckdb_plan : CustomScan) : PlannedStmt :=
  {| ps_commandType := commandType tree;
     ps_queryId := queryId tree;
     hasReturning := bool_decide (returningList tree ≠ []);
     ps_hasModifyingCTE := hasModifyingCTE tree;
     ps_canSetTag := canSetTag tree;
     transientPlan := false;
     dependsOnRole := false;
     parallelModeNeeded := false;
     planTree := duckdb_plan;
     ps_rtable := [];
     permInfos := [];
     resultRelations := [];
     appendRelations := [];
     subplans := [];
     rewindPlanIDs := [];
     rowMarks := [];
     relationOids := [];
     invalItems := [];
     paramExecTypes := [];
     ps_utilityStmt := utilityStmt tree;
     ps_stmt_location := stmt_location tree;
     ps_stmt_len := stmt_len tree |}.

(** An assignment to the global [duckdb_explain_analyze]. *)
Definition with_explain_analyze (analyze : bool) w : World :=
  {| heap := heap w; search_path := search_path w; GUCNestLevel := GUCNestLevel w;
     search_path_stack := search_path_stack w; ActivePortal := ActivePortal w;
     duckdb_explain_analyze := analyze; pg_type := pg_type w;
     elog_out := elog_out w; engine_calls := engine_calls w |}.

(** The query text of the last [Prepare] call. *)
Definition prepared_text (calls : list EngineCall) : option string :=
  match last calls with
  | Some (CallPrepare _ query_string) => Some query_string
  | _ => None
  end.

End Observations.

(** * A small host and engine to run the bridge on *)

Module Demo.

Inductive DemoType := INTEGER | VARCHAR | UNION_TYPE.

(** An expression is the list of the variables in it. *)
#[export] Instance types : BridgeTypes :=
  {| Node := list Var; RangeTblEntry := string; ParamListInfo := unit;
     PlannerInfo := nat; LogicalType := DemoType; Connection := string |}.

(** The deparser answers [text] when [search_path] is empty and fails
    otherwise; the engine answers [prepared] to every statement. *)
Definition ops (text : option string) (prepared : PreparedStatement) : BridgeOps :=
  @Build_BridgeOps types
    (λ _ _ path, if decide (path = "") then text else None)
    (λ n _, n)
    (λ _ q, (q, Some 7%nat))
    (λ t, match t with INTEGER => 23 | VARCHAR => 25 | UNION_TYPE => 0 end%N)
    (λ _ _ _ query_string, query_string)
    (λ _ _, prepared).

Definition col (attno : Z) : Var :=
  {| varno := 1; varattno := attno; vartype := 23%N; vartypmod := -1;
     varcollid := 0%N; varlevelsup := 0%N |}.

Definition where_clause : FromExpr := {| quals := [col 1] |}.

(** [SELECT a, b FROM t WHERE a > 0]. *)
Definition query : Query :=
  {| commandType := CMD_SELECT; queryId := 99%N; canSetTag := true;
     utilityStmt := None; hasModifyingCTE := false; rtable := ["t"];
     jointree := Some where_clause;
     targetList := [col 1; col 2]; returningList := [];
     stmt_location := 0; stmt_len := 32 |}.

Definition text : string := "SELECT a, b FROM public.t WHERE (a > 0)".

Definition world : World :=
  {| heap := {[ 1%positive := query ]};
     search_path := "public"; GUCNestLevel := 1;
     search_path_stack := [(1%nat, "pg_catalog")];
     ActivePortal := None; duckdb_explain_analyze := false;
     pg_type := {[ 23%N := {| typtypmod := -1; typcollation := 0%N |};
                   25%N := {| typtypmod := -1; typcollation := 100%N |} ]};
     elog_out := []; engine_calls := [] |}.

(** The same session while an EXPLAIN portal is active. *)
Definition explain_world (analyze : bool) : World :=
  {| heap := heap world; search_path := search_path world;
     GUCNestLevel := GUCNestLevel world;
     search_path_stack := search_path_stack world;
     ActivePortal := Some {| commandTag := CMDTAG_EXPLAIN |};
     duckdb_explain_analyze := analyze;
     pg_type := pg_type world; elog_out := []; engine_calls := [] |}.

Definition two_columns : PreparedStatement :=
  {| error := None; columns := [(INTEGER, "a"); (VARCHAR, "b")] |}.

Definition unsupported_column : PreparedStatement :=
  {| error := None; columns := [(INTEGER, "a"); (UNION_TYPE, "u"); (VARCHAR, "b")] |}.

Definition rejected : PreparedStatement :=
  {| error := Some "Parser Error: syntax error at or near ILIKE"; columns := [] |}.

(** The state [DuckdbPrepare] returns in from [w0]. *)
Definition prepared_world (w0 : World) (query_string : string) : World :=
  world_prepared w0 query text query
    [CallCreateConnection ["t"] 7%nat [col 1; col 2; col 1] query_string;
     CallPrepare query_string query_string].

(** The bridge with a deparser that succeeds and a two-column handle. *)
Definition bridge : BridgeOps := ops (Some text) two_columns.

(** The statement the demo session gets. *)
Definition demo_stmt : PlannedStmt :=
  packaged query
    (duckdb_node 1%positive
       [schema_entry 0 23%N {| typtypmod := -1; typcollation := 0%N |} "a";
        schema_entry 1 25%N {| typtypmod := -1; typcollation := 100%N |} "b"]).

End Demo.

(** * A second host and engine, which show what they were handed *)

Module Probe.

(** A connection is the tuple of the arguments it was created with. *)
#[export] Instance types : BridgeTypes :=
  {| Node := list Var; RangeTblEntry := string; ParamListInfo := unit;
     PlannerInfo := nat; LogicalType := Demo.DemoType;
     Connection := list string * nat * list Var * string |}.

Definition where_clause : FromExpr := {| quals := [Demo.col 1] |}.

(** [SELECT a, b FROM t WHERE a > 0]. *)
Definition query : Query :=
  {| commandType := CMD_SELECT; queryId := 99%N; canSetTag := true;
     utilityStmt := None; hasModifyingCTE := false; rtable := ["t"];
     jointree := Some where_clause;
     targetList := [Demo.col 1; Demo.col 2]; returningList := [];
     stmt_location := 0; stmt_len := 32 |}.

Definition no_quals : FromExpr := {| quals := [] |}.

(** What the planner leaves of a tree: no target list, no qualifiers. *)
Definition planned (q : Query) : Query :=
  {| commandType := commandType q; queryId := queryId q; canSetTag := canSetTag q;
     utilityStmt := utilityStmt q; hasModifyingCTE := hasModifyingCTE q;
     rtable := rtable q; jointree := Some no_quals; targetList := [];
     returningList := returningList q;
     stmt_location := stmt_location q; stmt_len := stmt_len q |}.

(** The variable extraction answers only under the three recurse flags;
    the planner rewrites the tree it is given; the type mapper knows
    INTEGER alone; the adapter answers with its arguments. *)
Definition ops (prepared : PreparedStatement) : BridgeOps :=
  @Build_BridgeOps types
    (λ _ _ path, if decide (path = "") then Some Demo.text else None)
    (λ n flags, if decide (flags = 42) then n else [])
    (λ _ q, (planned q, Some 7%nat))
    (λ t, match t with Demo.INTEGER => 23 | _ => 0 end%N)
    (λ rtables root vars query_string, (rtables, root, vars, query_string))
    (λ _ _, prepared).

Definition world : World :=
  {| heap := {[ 1%positive := query ]};
     search_path := "public"; GUCNestLevel := 0;
     search_path_stack := [];
     ActivePortal := None; duckdb_explain_analyze := false;
     pg_type := {[ 23%N := {| typtypmod := -1; typcollation := 0%N |} ]};
     elog_out := []; engine_calls := [] |}.

Definition one_column : PreparedStatement :=
  {| error := None; columns := [(Demo.INTEGER, "a")] |}.

Definition union_first : PreparedStatement :=
  {| error := None; columns := [(Demo.UNION_TYPE, "u"); (Demo.INTEGER, "a")] |}.

Definition varchar_first : PreparedStatement :=
  {| error := None; columns := [(Demo.VARCHAR, "b")] |}.

(** The connection the adapter answers with on [query]. *)
Definition connection : Connection :=
  (["t"], 7%nat, [Demo.col 1; Demo.col 2; Demo.col 1], Demo.text).

(** The state [DuckdbPrepare] returns in from [world]. *)
Definition prepared_world : World :=
  world_prepared world query Demo.text (planned query)
    [CallCreateConnection ["t"] 7%nat [Demo.col 1; Demo.col 2; Demo.col 1] Demo.text;
     CallPrepare connection Demo.text].

End Probe.

(** * Properties *)

Section Facts.
Context {BT : BridgeTypes} {BO : BridgeOps}.
Implicit Types (w : World) (tree : Query) (query parse : QueryPtr).

Lemma SetConfigOption_search_path value w :
  SetConfigOption "search_path" value w =
  Ret () (with_guc value (GUCNestLevel w)
            (if decide (GUCNestLevel w = 0%nat) then search_path_stack w
             else match search_path_stack w with
                  | (l, _) :: _ =>
                      if decide (GUCNestLevel w ≤ l)%nat then search_path_stack w
                      else (GUCNestLevel w, search_path w) :: search_path_stack w
                  | [] => [(GUCNestLevel w, search_path w)]
                  end) w).
Proof. unfold SetConfigOption. by rewrite decide_True. Qed.

Lemma DuckdbPrepare_unfold query bound_params w tree :
  heap w !! query = Some tree →
  DuckdbPrepare query bound_params w = DuckdbPrepare_run query bound_params w tree.
Proof.
  intros Hq.
  unfold DuckdbPrepare, DuckdbPrepare_run, copyObjectImpl, call_pg_get_querydef,
    PlanQuery, mbind, PG_bind, mret, PG_ret, deref, get, store, throw, fault,
    NewGUCNestLevel, elog, call_DuckdbCreateConnection, call_Prepare,
    psprintf_s, list_concat.
  rewrite Hq, SetConfigOption_search_path. cbn.
  rewrite lookup_insert_eq. cbn.
  rewrite (decide_False (P := S (GUCNestLevel w) = 0%nat)) by lia.
  destruct (pgduckdb_pg_get_querydef tree false "") as [text|] eqn:Hd; [|done].
  unfold AtEOXact_GUC_rollback, world_prepared, world_planned, world_logged,
    world_rolled_back, world_overridden. cbn.
  fold (copy_addr w).
  destruct (unwind_stack _ _ _) as [value stack] eqn:Hu. cbn.
  rewrite lookup_insert_eq.
  destruct (jointree tree) as [jt|]; [|done]. cbn.
  rewrite lookup_insert_eq.
  unfold planner_glob.
  destruct (subquery_planner _ tree) as [tree' [root|]]; cbn; [|done].
  rewrite <- !app_assoc. done.
Qed.

Lemma copy_addr_fresh w : heap w !! copy_addr w = None.
Proof. apply not_elem_of_dom. unfold copy_addr. apply is_fresh. Qed.

Lemma copy_addr_ne w p : is_Some (heap w !! p) → p ≠ copy_addr w.
Proof. intros [t Ht] ->. rewrite copy_addr_fresh in Ht. discriminate. Qed.

Lemma heap_world_overridden w tree p :
  p ≠ copy_addr w → heap (world_overridden w tree) !! p = heap w !! p.
Proof. intros Hp. cbn. by rewrite lookup_insert_ne. Qed.

Lemma heap_world_rolled_back w tree :
  heap (world_rolled_back w tree) = <[copy_addr w := tree]> (heap w).
Proof. unfold world_rolled_back. by destruct (unwind_stack _ _ _). Qed.

Lemma heap_world_planned w tree text tree' p :
  p ≠ copy_addr w → heap (world_planned w tree text tree') !! p = heap w !! p.
Proof.
  intros Hp. unfold world_planned, world_logged. cbn.
  rewrite heap_world_rolled_back. by rewrite !lookup_insert_ne.
Qed.

Lemma heap_world_prepared w tree text tree' calls p :
  p ≠ copy_addr w → heap (world_prepared w tree text tree' calls) !! p = heap w !! p.
Proof. intros Hp. unfold world_prepared. cbn -[world_planned]. by apply heap_world_planned. Qed.

Lemma pg_type_world_rolled_back w tree : pg_type (world_rolled_back w tree) = pg_type w.
Proof. unfold world_rolled_back. by destruct (unwind_stack _ _ _). Qed.

Lemma pg_type_world_prepared w tree text tree' calls :
  pg_type (world_prepared w tree text tree' calls) = pg_type w.
Proof. cbn. apply pg_type_world_rolled_back. Qed.

Lemma guc_world_rolled_back w tree :
  guc_consistent w →
  search_path (world_rolled_back w tree) = search_path w ∧
  GUCNestLevel (world_rolled_back w tree) = GUCNestLevel w ∧
  search_path_stack (world_rolled_back w tree) = search_path_stack w.
Proof.
  unfold guc_consistent, world_rolled_back, world_overridden. cbn.
  destruct (search_path_stack w) as [|[l prior] stack] eqn:Hs; cbn.
  - intros _. rewrite decide_True by lia. done.
  - intros Hl. rewrite (decide_False (P := (S (GUCNestLevel w) ≤ l)%nat)) by lia.
    cbn. rewrite decide_True by lia. cbn.
    rewrite decide_False by lia. done.
Qed.

Lemma guc_world_planned w tree text tree' :
  guc_consistent w →
  search_path (world_planned w tree text tree') = search_path w ∧
  GUCNestLevel (world_planned w tree text tree') = GUCNestLevel w ∧
  search_path_stack (world_planned w tree text tree') = search_path_stack w.
Proof. intros Hc. cbn. by apply guc_world_rolled_back. Qed.

Lemma DuckdbPrepare_frame query bound_params w w' :
  final_world (DuckdbPrepare query bound_params w) = Some w' →
  pg_type w' = pg_type w ∧
  ∀ p, is_Some (heap w !! p) → heap w' !! p = heap w !! p.
Proof.
  destruct (heap w !! query) as [tree|] eqn:Hq.
  - rewrite (DuckdbPrepare_unfold _ _ _ _ Hq). unfold DuckdbPrepare_run.
    destruct (pgduckdb_pg_get_querydef tree false "") as [text|].
    + destruct (jointree tree) as [jt|]; [|done].
      destruct (subquery_planner _ tree) as [tree' [root|]]; cbn -[world_prepared world_planned];
        intros [= <-]; split.
      * apply pg_type_world_prepared.
      * intros p Hp. apply heap_world_prepared. by apply copy_addr_ne.
      * cbn. apply pg_type_world_rolled_back.
      * intros p Hp. apply heap_world_planned. by apply copy_addr_ne.
    + cbn -[world_overridden]. intros [= <-]. split; [done|].
      intros p Hp. apply heap_world_overridden. by apply copy_addr_ne.
  - unfold DuckdbPrepare, copyObjectImpl, mbind, PG_bind, deref.
    by rewrite Hq.
Qed.

Lemma GetNames_lookup_middle (p : PreparedStatement) pre c rest :
  columns p = pre ++ c :: rest → GetNames p !! length pre = Some c.2.
Proof.
  intros Hc. unfold GetNames. rewrite Hc, fmap_app. cbn.
  rewrite lookup_app_r by (by rewrite length_fmap).
  by rewrite length_fmap, Nat.sub_diag.
Qed.

Lemma usable_not_unmapped w t : ¬ unmapped w t ↔ usable w t.
Proof.
  unfold unmapped, usable. split.
  - intros Hn.
    destruct (OidIsValid (GetPostgresDuckDBType t)) eqn:Hv;
      [|exfalso; apply Hn; by left].
    destruct (pg_type w !! GetPostgresDuckDBType t) eqn:Ht;
      [by eauto | exfalso; apply Hn; by right].
  - intros [Hv [typtup Ht]] [Hb|Hb]; congruence.
Qed.

Lemma usable_frame w w' t : pg_type w' = pg_type w → usable w t → usable w' t.
Proof. unfold usable. by intros ->. Qed.

Lemma CreatePlan_columns_ok (p : PreparedStatement) w rest :
  ∀ pre tl,
  columns p = pre ++ rest →
  Forall (usable w) rest.*1 →
  ∃ tl',
    CreatePlan_columns p rest.*1 (length pre) tl w = Ret (Some (tl ++ tl')) w ∧
    length tl' = length rest ∧
    ∀ j c, rest !! j = Some c →
      ∃ typtup,
        pg_type w !! GetPostgresDuckDBType c.1 = Some typtup ∧
        tl' !! j = Some (schema_entry (length pre + j)
                           (GetPostgresDuckDBType c.1) typtup c.2).
Proof.
  induction rest as [|c rest IH]; intros pre tl Hc Hu.
  - exists []. cbn. rewrite app_nil_r. split_and!; [done..|]. intros j c [=].
  - cbn in Hu. apply Forall_cons in Hu as [[Hv [typtup Ht]] Hu].
    destruct (IH (pre ++ [c])
                (tl ++ [schema_entry (length pre) (GetPostgresDuckDBType c.1) typtup c.2]))
      as (tl' & Hrun & Hlen & Hent); [by rewrite <- app_assoc | done |].
    exists (schema_entry (length pre) (GetPostgresDuckDBType c.1) typtup c.2 :: tl').
    split_and!.
    + cbn. rewrite Hv. cbn. unfold mbind, PG_bind, get. cbn.
      rewrite Ht, (GetNames_lookup_middle _ _ _ _ Hc).
      rewrite length_app in Hrun. cbn in Hrun.
      replace (S (length pre)) with (length pre + 1)%nat by lia.
      unfold lappend. fold (schema_entry (length pre) (GetPostgresDuckDBType c.1) typtup c.2).
      rewrite Hrun. by rewrite <- app_assoc.
    + cbn. by rewrite Hlen.
    + intros [|j] c' Hj; cbn in Hj.
      * injection Hj as <-. exists typtup. rewrite Nat.add_0_r. done.
      * destruct (Hent j c' Hj) as (typ' & Ht' & Hl). exists typ'. split; [done|].
        rewrite lookup_cons, Hl, length_app. cbn.
        by replace (length pre + 1 + j)%nat with (length pre + S j)%nat by lia.
Qed.

Lemma CreatePlan_columns_fail (p : PreparedStatement) w rest :
  ∀ pre tl j t,
  columns p = pre ++ rest →
  list_find (unmapped w) rest.*1 = Some (j, t) →
  CreatePlan_columns p rest.*1 (length pre) tl w =
  Ret None (warned (lookup_failed_msg (GetPostgresDuckDBType t)) w).
Proof.
  induction rest as [|c rest IH]; intros pre tl j t Hc Hf; [done|].
  cbn in Hf. cbn.
  destruct (decide (unmapped w c.1)) as [Hbad|Hgood].
  - injection Hf as <- <-.
    destruct (OidIsValid (GetPostgresDuckDBType c.1)) eqn:Hv; cbn; [|done].
    unfold mbind, PG_bind, get. cbn.
    destruct Hbad as [Hbad|Hbad]; [congruence|]. by rewrite Hbad.
  - apply usable_not_unmapped in Hgood as [Hv [typtup Ht]].
    destruct (list_find _ rest.*1) as [[j' t']|] eqn:Hf'; [|done].
    cbn in Hf. injection Hf as <- <-.
    rewrite Hv. cbn. unfold mbind, PG_bind, get. cbn.
    rewrite Ht, (GetNames_lookup_middle _ _ _ _ Hc).
    specialize (IH (pre ++ [c])). rewrite length_app in IH. cbn in IH.
    replace (S (length pre)) with (length pre + 1)%nat by lia.
    eapply IH; [by rewrite <- app_assoc | done].
Qed.

(** Whatever the loop does, it only writes to the log. *)
Lemma CreatePlan_columns_frame (p : PreparedStatement) types :
  ∀ i tl w w',
  final_world (CreatePlan_columns p types i tl w) = Some w' →
  w' = with_elog (elog_out w') w.
Proof.
  induction types as [|t types IH]; intros i tl w w'; cbn.
  - intros [= <-]. by destruct w.
  - destruct (OidIsValid (GetPostgresDuckDBType t)); cbn.
    + unfold mbind, PG_bind, get. cbn.
      destruct (pg_type w !! GetPostgresDuckDBType t); cbn.
      * destruct (GetNames p !! i); [apply IH | done].
      * by intros [= <-].
    + by intros [= <-].
Qed.

Lemma CreatePlan_after_error query bound_params w p conn w1 e :
  DuckdbPrepare query bound_params w = Ret (p, conn) w1 →
  error p = Some e →
  CreatePlan query bound_params w = Ret None (warned (prepare_error_msg e) w1).
Proof.
  intros Hp He. unfold CreatePlan, mbind, PG_bind. rewrite Hp. cbn.
  unfold HasError, GetError. rewrite He. cbn. done.
Qed.

Lemma CreatePlan_after_columns query bound_params w p conn w1 :
  DuckdbPrepare query bound_params w = Ret (p, conn) w1 →
  error p = None →
  CreatePlan query bound_params w =
  match CreatePlan_columns p (GetTypes p) 0 [] w1 with
  | Ret (Some tlist) w2 => Ret (Some (duckdb_node query tlist)) w2
  | Ret None w2 => Ret None w2
  | Throw w2 => Throw w2
  | Fault => Fault
  end.
Proof.
  intros Hp He. unfold CreatePlan, mbind, PG_bind. rewrite Hp. cbn.
  unfold HasError. rewrite He. cbn.
  destruct (CreatePlan_columns _ _ _ _ _) as [[tl|] w2|w2|]; done.
Qed.

Lemma DuckdbPlanNode_after_null parse cursor_options bound_params w w' :
  CreatePlan parse bound_params w = Ret None w' →
  DuckdbPlanNode parse cursor_options bound_params w = Ret None w'.
Proof. intros Hc. unfold DuckdbPlanNode, mbind, PG_bind. by rewrite Hc. Qed.

Lemma CreatePlan_frame query bound_params w w' :
  final_world (CreatePlan query bound_params w) = Some w' →
  ∀ p, is_Some (heap w !! p) → heap w' !! p = heap w !! p.
Proof.
  unfold CreatePlan, mbind, PG_bind.
  destruct (DuckdbPrepare query bound_params w) as [[p conn] w1|w1|] eqn:Hp; [| |done].
  - assert (Hf : final_world (DuckdbPrepare query bound_params w) = Some w1)
      by (by rewrite Hp).
    apply DuckdbPrepare_frame in Hf as [_ Hheap].
    cbn. destruct (HasError p); cbn.
    + intros [= <-]. done.
    + destruct (CreatePlan_columns _ _ _ _ _) as [[tl|] w2|w2|] eqn:Hl; cbn; [| | |done];
        intros [= <-] q Hq;
        (assert (Hf : final_world (CreatePlan_columns p (GetTypes p) 0 [] w1) = Some w2)
           by (by rewrite Hl));
        apply CreatePlan_columns_frame in Hf; rewrite Hf; cbn; by apply Hheap.
  - cbn. intros [= <-].
    assert (Hf : final_world (DuckdbPrepare query bound_params w) = Some w1)
      by (by rewrite Hp).
    by apply DuckdbPrepare_frame in Hf as [_ Hheap].
Qed.

Lemma DuckdbPlanNode_inv parse cursor_options bound_params w tree stmt w' :
  heap w !! parse = Some tree →
  DuckdbPlanNode parse cursor_options bound_params w = Ret (Some stmt) w' →
  ∃ node,
    CreatePlan parse bound_params w = Ret (Some node) w' ∧
    stmt = packaged tree node.
Proof.
  intros Hq. unfold DuckdbPlanNode, mbind, PG_bind.
  destruct (CreatePlan parse bound_params w) as [[node|] w1|w1|] eqn:Hc; [|done..].
  assert (Hf : final_world (CreatePlan parse bound_params w) = Some w1)
    by (by rewrite Hc).
  assert (Hq1 : heap w1 !! parse = Some tree)
    by (rewrite <- Hq; apply (CreatePlan_frame _ _ _ _ Hf); by eauto).
  unfold deref. rewrite Hq1. cbn. intros [= <- <-]. by exists node.
Qed.

Lemma globals_world_prepared w tree text tree' calls :
  ActivePortal (world_prepared w tree text tree' calls) = ActivePortal w ∧
  duckdb_explain_analyze (world_prepared w tree text tree' calls) =
    duckdb_explain_analyze w.
Proof. cbn. unfold world_rolled_back. by destruct (unwind_stack _ _ _). Qed.

(** One call under an EXPLAIN portal. *)
Lemma DuckdbPrepare_under_explain query bound_params w tree jt text tree' root portal :
  heap w !! query = Some tree →
  pgduckdb_pg_get_querydef tree false "" = Some text →
  jointree tree = Some jt →
  subquery_planner (planner_glob bound_params) tree = (tree', Some root) →
  ActivePortal w = Some portal →
  commandTag portal = CMDTAG_EXPLAIN →
  let query_string :=
    (if duckdb_explain_analyze w then "EXPLAIN ANALYZE " else "EXPLAIN ") +:+ text in
  let vars := pull_var_clause (targetList tree) pull_flags ++
              pull_var_clause (quals jt) pull_flags in
  let conn := DuckdbCreateConnection (rtable tree) root vars query_string in
  DuckdbPrepare query bound_params w =
  Ret (Prepare conn query_string, conn)
      (world_prepared w tree text tree'
         [CallCreateConnection (rtable tree) root vars query_string;
          CallPrepare conn query_string]).
Proof.
  intros Hq Hd Hj Hs Hportal Htag query_string vars conn.
  rewrite (DuckdbPrepare_unfold _ _ _ _ Hq). unfold DuckdbPrepare_run.
  rewrite Hd, Hj, Hs.
  assert (Hw : explain_wrap w text = query_string).
  { unfold explain_wrap, query_string, psprintf_s. rewrite Hportal, Htag.
    rewrite decide_True by done. by destruct (duckdb_explain_analyze w). }
  by rewrite Hw.
Qed.

Lemma prepared_text_after calls conn_call conn query_string :
  prepared_text (calls ++ [conn_call; CallPrepare conn query_string]) =
  Some query_string.
Proof. unfold prepared_text. by rewrite last_app. Qed.

End Facts.

(** * The plan synthesizer *)

Section Claims.
Context {BT : BridgeTypes} {BO : BridgeOps}.
Implicit Types (w : World) (tree : Query) (query parse : QueryPtr).

(** C1. When the prepared handle carries no error and every result
    column maps to a valid host type that the catalog knows, [CreatePlan]
    returns a node whose output schema has as many entries as the handle
    has result columns, and entry [i] carries the name (and the mapped
    type) of result column [i], in the handle's order. *)
Theorem CreatePlan_schema_follows_handle query bound_params w p conn w1 :
  DuckdbPrepare query bound_params w = Ret (p, conn) w1 →
  error p = None →
  Forall (usable w) (GetTypes p) →
  ∃ node,
    CreatePlan query bound_params w = Ret (Some node) w1 ∧
    length (custom_scan_tlist node) = length (columns p) ∧
    resname <$> custom_scan_tlist node = GetNames p ∧
    ∀ i c, columns p !! i = Some c →
      ∃ te, custom_scan_tlist node !! i = Some te ∧
            resname te = c.2 ∧
            vartype (expr te) = GetPostgresDuckDBType c.1.
Proof.
  intros Hp He Hu.
  assert (Hf : final_world (DuckdbPrepare query bound_params w) = Some w1)
    by (by rewrite Hp).
  apply DuckdbPrepare_frame in Hf as [Hcat _].
  destruct (CreatePlan_columns_ok p w1 (columns p) [] []) as (tl & Hrun & Hlen & Hent).
  { done. }
  { eapply Forall_impl; [exact Hu|]. intros t. by apply usable_frame. }
  exists (duckdb_node query tl).
  rewrite (CreatePlan_after_columns _ _ _ _ _ _ Hp He).
  unfold GetTypes. cbn in Hrun. rewrite Hrun. cbn.
  split_and!; [done | done | |].
  - apply list_eq. intros i. unfold GetNames. rewrite !list_lookup_fmap.
    destruct (columns p !! i) as [c|] eqn:Hc.
    + destruct (Hent i c Hc) as (typtup & _ & Hl). by rewrite Hl.
    + apply lookup_ge_None_1 in Hc.
      rewrite (lookup_ge_None_2 tl i) by lia. done.
  - intros i c Hc. destruct (Hent i c Hc) as (typtup & _ & Hl).
    eexists. split; [exact Hl|]. done.
Qed.

(** C2. When the prepared handle carries an error, [CreatePlan] appends
    one warning made of the fixed prefix and the engine's error text and
    returns null, and [DuckdbPlanNode] returns null in the same state. *)
Theorem prepare_error_gives_no_plan query cursor_options bound_params w p conn w1 e :
  DuckdbPrepare query bound_params w = Ret (p, conn) w1 →
  error p = Some e →
  let w2 := warned
              ("(PGDuckDB/CreatePlan) Prepared query returned an error: '" +:+ e) w1 in
  CreatePlan query bound_params w = Ret None w2 ∧
  DuckdbPlanNode query cursor_options bound_params w = Ret None w2 ∧
  elog_out w2 =
    elog_out w1 ++
      [(WARNING, "(PGDuckDB/CreatePlan) Prepared query returned an error: '" +:+ e)].
Proof.
  intros Hp He w2.
  pose proof (CreatePlan_after_error _ _ _ _ _ _ _ Hp He) as Hc.
  split_and!; [exact Hc | by apply DuckdbPlanNode_after_null | done].
Qed.

(** C3 (defect in the code). When the first rejected result column has an
    engine type without a host mapping, the warning of [CreatePlan] does
    not identify that type: line 122 prints [postgresColumnOid] inside
    the branch where it is the invalid sentinel, so the text is the
    constant ["... Cache lookup failed for type 0"] whichever engine type
    was rejected.  Null is returned as claimed. *)
Theorem unmappable_type_warning_is_constant
    query cursor_options bound_params w p conn w1 i bad :
  DuckdbPrepare query bound_params w = Ret (p, conn) w1 →
  error p = None →
  list_find (unmapped w) (GetTypes p) = Some (i, bad) →
  OidIsValid (GetPostgresDuckDBType bad) = false →
  let w2 := warned "(PGDuckDB/CreatePlan) Cache lookup failed for type 0" w1 in
  CreatePlan query bound_params w = Ret None w2 ∧
  DuckdbPlanNode query cursor_options bound_params w = Ret None w2.
Proof.
  intros Hp He Hfind Hv w2.
  assert (Hf : final_world (DuckdbPrepare query bound_params w) = Some w1)
    by (by rewrite Hp).
  apply DuckdbPrepare_frame in Hf as [Hcat _].
  assert (Ho : GetPostgresDuckDBType bad = 0%N).
  { unfold OidIsValid, InvalidOid in Hv. by apply negb_false_iff, N.eqb_eq in Hv. }
  assert (Hc : CreatePlan query bound_params w = Ret None w2).
  { rewrite (CreatePlan_after_columns _ _ _ _ _ _ Hp He).
    rewrite (CreatePlan_columns_fail p w1 (columns p) [] [] i bad); [|done|].
    - unfold lookup_failed_msg. by rewrite Ho.
    - rewrite <- Hfind. unfold GetTypes. apply list_find_ext.
      intros t'. unfold unmapped. by rewrite Hcat. }
  split; [exact Hc | by apply DuckdbPlanNode_after_null].
Qed.

(** X17. When some result column has no valid host type, or its host type
    has no catalog row, [CreatePlan] stops at the first such column,
    appends one warning that prints that column's mapped host type
    identifier, and returns null; [DuckdbPlanNode] returns null as well,
    so no node reaches the caller.  For a type without a mapping the
    identifier printed is the invalid sentinel 0. *)
Theorem unmapped_column_gives_no_plan query cursor_options bound_params w p conn w1 t :
  DuckdbPrepare query bound_params w = Ret (p, conn) w1 →
  error p = None →
  t ∈ GetTypes p →
  unmapped w t →
  ∃ i bad,
    list_find (unmapped w) (GetTypes p) = Some (i, bad) ∧
    let o := GetPostgresDuckDBType bad in
    let w2 := warned ("(PGDuckDB/CreatePlan) Cache lookup failed for type " +:+ pretty o) w1 in
    CreatePlan query bound_params w = Ret None w2 ∧
    DuckdbPlanNode query cursor_options bound_params w = Ret None w2 ∧
    elog_out w2 =
      elog_out w1 ++
        [(WARNING, "(PGDuckDB/CreatePlan) Cache lookup failed for type " +:+ pretty o)] ∧
    (OidIsValid o = false → o = 0%N).
Proof.
  intros Hp He Hin Hbad.
  assert (Hf : final_world (DuckdbPrepare query bound_params w) = Some w1)
    by (by rewrite Hp).
  apply DuckdbPrepare_frame in Hf as [Hcat _].
  destruct (list_find_elem_of (unmapped w) _ _ Hin Hbad) as [[i bad] Hfind].
  exists i, bad. split; [exact Hfind|]. intros o w2.
  assert (Hc : CreatePlan query bound_params w = Ret None w2).
  { rewrite (CreatePlan_after_columns _ _ _ _ _ _ Hp He).
    rewrite (CreatePlan_columns_fail p w1 (columns p) [] [] i bad); [done..|].
    rewrite <- Hfind. unfold GetTypes. apply list_find_ext.
    intros t'. unfold unmapped. by rewrite Hcat. }
  split_and!; [exact Hc | by apply DuckdbPlanNode_after_null | done |].
  unfold OidIsValid, InvalidOid. intros Hv.
  apply negb_false_iff, N.eqb_eq in Hv. done.
Qed.

(** * The query materializer *)

(** C4. [DuckdbPrepare] works on a copy at a fresh address: on return and
    on either host error the caller's tree, and every other tree that was
    allocated before the call, is what it was; the planner's rewriting
    lands in the copy.  The only other outcome is the null [jointree]
    dereference. *)
Theorem DuckdbPrepare_keeps_caller_tree query bound_params w tree :
  heap w !! query = Some tree →
  copy_addr w ≠ query ∧
  match DuckdbPrepare query bound_params w with
  | Ret _ w' =>
      heap w' !! query = Some tree ∧
      (∀ p, is_Some (heap w !! p) → heap w' !! p = heap w !! p) ∧
      heap w' !! copy_addr w =
        Some (subquery_planner (planner_glob bound_params) tree).1
  | Throw w' =>
      heap w' !! query = Some tree ∧
      (∀ p, is_Some (heap w !! p) → heap w' !! p = heap w !! p)
  | Fault => jointree tree = None
  end.
Proof.
  intros Hq. split.
  { intros Heq. pose proof (copy_addr_fresh w) as Hn. congruence. }
  pose proof (DuckdbPrepare_frame query bound_params w) as Hframe.
  rewrite (DuckdbPrepare_unfold _ _ _ _ Hq) in *. unfold DuckdbPrepare_run in *.
  destruct (pgduckdb_pg_get_querydef tree false "") as [text|].
  - destruct (jointree tree) as [jt|]; [|done].
    destruct (subquery_planner _ tree) as [tree' [root|]].
    + destruct (Hframe _ eq_refl) as [_ Hheap]. split_and!.
      * rewrite <- Hq. apply Hheap. by eauto.
      * exact Hheap.
      * cbn. by rewrite lookup_insert_eq.
    + destruct (Hframe _ eq_refl) as [_ Hheap]. split.
      * rewrite <- Hq. apply Hheap. by eauto.
      * exact Hheap.
  - destruct (Hframe _ eq_refl) as [_ Hheap]. split.
    + rewrite <- Hq. apply Hheap. by eauto.
    + exact Hheap.
Qed.

(** C5 (amended). From a consistent GUC state, whenever the deparser
    returns, every way out of [DuckdbPrepare] - the normal return, with
    or without a prepare error in the handle, and a host error raised by
    the planner - leaves [search_path], the nest level and the stack of
    saved values exactly as they were before the call. *)
Theorem search_path_restored_when_deparser_returns query bound_params w tree w' :
  heap w !! query = Some tree →
  guc_consistent w →
  is_Some (pgduckdb_pg_get_querydef tree false "") →
  final_world (DuckdbPrepare query bound_params w) = Some w' →
  search_path w' = search_path w ∧
  GUCNestLevel w' = GUCNestLevel w ∧
  search_path_stack w' = search_path_stack w.
Proof.
  intros Hq Hc [text Hd].
  rewrite (DuckdbPrepare_unfold _ _ _ _ Hq). unfold DuckdbPrepare_run. rewrite Hd.
  destruct (jointree tree) as [jt|]; [|done].
  destruct (subquery_planner _ tree) as [tree' [root|]]; intros [= <-].
  - cbn. by apply guc_world_rolled_back.
  - by apply guc_world_planned.
Qed.

(** C7. While the active portal runs EXPLAIN, the text that is prepared
    is the deparsed text behind ["EXPLAIN ANALYZE "] when
    [duckdb_explain_analyze] is set at the time of the call and behind
    ["EXPLAIN "] when it is not, and the call leaves the toggle as it
    found it.  Assigning the toggle afterwards changes the prefix of the
    next call on the same tree and nothing else of its text. *)
Theorem explain_prefix_follows_toggle query bound_params w tree jt text tree' root portal :
  heap w !! query = Some tree →
  pgduckdb_pg_get_querydef tree false "" = Some text →
  jointree tree = Some jt →
  subquery_planner (planner_glob bound_params) tree = (tree', Some root) →
  ActivePortal w = Some portal →
  commandTag portal = CMDTAG_EXPLAIN →
  let wrapped (analyze : bool) :=
    (if analyze then "EXPLAIN ANALYZE " else "EXPLAIN ") +:+ text in
  ∃ conn w',
    DuckdbPrepare query bound_params w =
      Ret (Prepare conn (wrapped (duckdb_explain_analyze w)), conn) w' ∧
    prepared_text (engine_calls w') = Some (wrapped (duckdb_explain_analyze w)) ∧
    duckdb_explain_analyze w' = duckdb_explain_analyze w ∧
    ∀ analyze, ∃ conn2 w2,
      DuckdbPrepare query bound_params (with_explain_analyze analyze w') =
        Ret (Prepare conn2 (wrapped analyze), conn2) w2 ∧
      prepared_text (engine_calls w2) = Some (wrapped analyze).
Proof.
  intros Hq Hd Hj Hs Hportal Htag wrapped.
  pose proof (DuckdbPrepare_under_explain _ _ _ _ _ _ _ _ _ Hq Hd Hj Hs Hportal Htag)
    as Hrun.
  cbv zeta in Hrun. eexists _, _. split_and!; [exact Hrun | | |].
  - apply prepared_text_after.
  - apply globals_world_prepared.
  - intros analyze.
    match goal with
    | |- context [with_explain_analyze analyze ?w1] =>
        assert (Hq1 : heap (with_explain_analyze analyze w1) !! query = Some tree);
        [|assert (Hp1 : ActivePortal (with_explain_analyze analyze w1) = Some portal)]
    end.
    { cbn -[world_prepared]. rewrite <- Hq.
      apply heap_world_prepared, copy_addr_ne. by eauto. }
    { cbn -[world_prepared]. rewrite <- Hportal. apply globals_world_prepared. }
    pose proof (DuckdbPrepare_under_explain _ _ _ _ _ _ _ _ _ Hq1 Hd Hj Hs Hp1 Htag)
      as Hrun2.
    cbv zeta in Hrun2. eexists _, _. split; [exact Hrun2|].
    apply prepared_text_after.
Qed.

(** C8. Whenever [DuckdbPrepare] returns, the connection it returns is
    what the connection adapter answers for the copied range table, the
    planner's root and the variables of the target list followed by the
    variables of the join-tree qualifiers, both pulled from the tree as
    the caller passed it by the host's [pull_var_clause] under the flags
    that recurse through aggregates, window functions and placeholders;
    the handle was prepared on that connection, and these are the only
    two engine calls. *)
Theorem adapter_receives_pulled_vars query bound_params w tree p conn w' :
  heap w !! query = Some tree →
  DuckdbPrepare query bound_params w = Ret (p, conn) w' →
  ∃ jt root query_string,
    jointree tree = Some jt ∧
    (subquery_planner (planner_glob bound_params) tree).2 = Some root ∧
    let flags :=
      Z.lor (Z.lor PVC_RECURSE_AGGREGATES PVC_RECURSE_WINDOWFUNCS)
        PVC_RECURSE_PLACEHOLDERS in
    let vars := pull_var_clause (targetList tree) flags ++
                pull_var_clause (quals jt) flags in
    conn = DuckdbCreateConnection (rtable tree) root vars query_string ∧
    p = Prepare conn query_string ∧
    engine_calls w' =
      engine_calls w ++
        [CallCreateConnection (rtable tree) root vars query_string;
         CallPrepare conn query_string].
Proof.
  intros Hq. rewrite (DuckdbPrepare_unfold _ _ _ _ Hq). unfold DuckdbPrepare_run.
  destruct (pgduckdb_pg_get_querydef tree false "") as [text|]; [|done].
  destruct (jointree tree) as [jt|]; [|done].
  destruct (subquery_planner _ tree) as [tree' [root|]]; [|done].
  intros [= <- <- <-]. by exists jt, root, (explain_wrap w text).
Qed.

(** * The planner entry point *)

(** C6. A statement returned by [DuckdbPlanNode] has the node of
    [CreatePlan] as its plan tree, takes the command type, the
    modifying-CTE flag and the tag flag from the caller's tree, has its
    returning flag computed from the caller's returning list, and has
    every auxiliary list empty. *)
Theorem DuckdbPlanNode_packages_plan parse cursor_options bound_params w tree stmt w' :
  heap w !! parse = Some tree →
  DuckdbPlanNode parse cursor_options bound_params w = Ret (Some stmt) w' →
  CreatePlan parse bound_params w = Ret (Some (planTree stmt)) w' ∧
  ps_commandType stmt = commandType tree ∧
  hasReturning stmt = bool_decide (returningList tree ≠ []) ∧
  ps_hasModifyingCTE stmt = hasModifyingCTE tree ∧
  ps_canSetTag stmt = canSetTag tree ∧
  subplans stmt = [] ∧ rowMarks stmt = [] ∧ resultRelations stmt = [] ∧
  relationOids stmt = [] ∧ ps_rtable stmt = [] ∧ rewindPlanIDs stmt = [] ∧
  invalItems stmt = [] ∧ paramExecTypes stmt = [] ∧
  permInfos stmt = [] ∧ appendRelations stmt = [].
Proof.
  intros Hq Hrun.
  destruct (DuckdbPlanNode_inv _ _ _ _ _ _ _ Hq Hrun) as (node & Hc & ->).
  cbn. by split_and!.
Qed.

(** C9. [DuckdbPlanNode] never looks at [cursor_options]: two calls that
    differ only there have the same outcome, result and state. *)
Theorem cursor_options_ignored parse cursor_options cursor_options' bound_params w :
  DuckdbPlanNode parse cursor_options bound_params w =
  DuckdbPlanNode parse cursor_options' bound_params w.
Proof. reflexivity. Qed.

(** C10. A statement returned by [DuckdbPlanNode] carries the caller's
    query identifier, utility statement, statement location and statement
    length; its transient-plan, depends-on-role and parallel-mode-needed
    flags are false; its returning flag is true exactly when the caller's
    returning list is not empty. *)
Theorem DuckdbPlanNode_copies_identity parse cursor_options bound_params w tree stmt w' :
  heap w !! parse = Some tree →
  DuckdbPlanNode parse cursor_options bound_params w = Ret (Some stmt) w' →
  ps_queryId stmt = queryId tree ∧
  ps_utilityStmt stmt = utilityStmt tree ∧
  ps_stmt_location stmt = stmt_location tree ∧
  ps_stmt_len stmt = stmt_len tree ∧
  transientPlan stmt = false ∧
  dependsOnRole stmt = false ∧
  parallelModeNeeded stmt = false ∧
  (hasReturning stmt = true ↔ returningList tree ≠ []).
Proof.
  intros Hq Hrun.
  destruct (DuckdbPlanNode_inv _ _ _ _ _ _ _ Hq Hrun) as (node & Hc & ->).
  cbn. split_and!; try done. apply bool_decide_eq_true.
Qed.

End Claims.

(** * The bridge on the demo session *)

Module DemoRuns.
Import Demo.

(** [SELECT a, b FROM t ...] with an integer and a text column: the plan
    has the two-column schema (a, b), in that order. *)
Example demo_plan :
  DuckdbPlanNode (BO := bridge) 1%positive 0 () world =
  Ret (Some demo_stmt) (prepared_world world text).
Proof. vm_compute. reflexivity. Qed.

Example demo_schema :
  (λ te, (resno te, resname te, vartype (expr te))) <$>
    custom_scan_tlist (planTree demo_stmt) =
  [(1, "a", 23%N); (2, "b", 25%N)].
Proof. reflexivity. Qed.

(** The same query under EXPLAIN, toggle off. *)
Example demo_explain :
  prepared_text (engine_calls (prepared_world (explain_world false)
                                 ("EXPLAIN " +:+ text))) =
  Some "EXPLAIN SELECT a, b FROM public.t WHERE (a > 0)".
Proof. reflexivity. Qed.

(** C1 on the two-column handle. *)
Lemma CreatePlan_schema_follows_handle_witness :
  ∃ node,
    CreatePlan (BO := bridge) 1%positive () world =
      Ret (Some node) (prepared_world world text) ∧
    length (custom_scan_tlist node) = length (columns two_columns) ∧
    resname <$> custom_scan_tlist node = GetNames two_columns ∧
    ∀ i c, columns two_columns !! i = Some c →
      ∃ te, custom_scan_tlist node !! i = Some te ∧
            resname te = c.2 ∧
            vartype (expr te) = GetPostgresDuckDBType (BridgeOps := bridge) c.1.
Proof.
  apply (CreatePlan_schema_follows_handle (BO := bridge)
           1%positive () world two_columns text).
  - vm_compute. reflexivity.
  - reflexivity.
  - repeat constructor; eexists; vm_compute; reflexivity.
Defined.

(** C2 on a handle that carries a parser error. *)
Lemma prepare_error_gives_no_plan_witness :
  let w2 :=
    warned
      ("(PGDuckDB/CreatePlan) Prepared query returned an error: '" +:+
       "Parser Error: syntax error at or near ILIKE")
      (prepared_world world text) in
  CreatePlan (BO := ops (Some text) rejected) 1%positive () world = Ret None w2 ∧
  DuckdbPlanNode (BO := ops (Some text) rejected) 1%positive 0 () world = Ret None w2 ∧
  elog_out w2 =
    elog_out (prepared_world world text) ++
      [(WARNING, "(PGDuckDB/CreatePlan) Prepared query returned an error: '" +:+
                 "Parser Error: syntax error at or near ILIKE")].
Proof.
  apply (prepare_error_gives_no_plan (BO := ops (Some text) rejected)
           1%positive 0 () world rejected text).
  - vm_compute. reflexivity.
  - reflexivity.
Defined.

(** X17 on a handle whose second column has no host type. *)
Lemma unmapped_column_gives_no_plan_witness :
  ∃ i bad,
    list_find (unmapped (BO := ops (Some text) unsupported_column) world)
      (GetTypes unsupported_column) = Some (i, bad) ∧
    let o := GetPostgresDuckDBType (BridgeOps := ops (Some text) unsupported_column) bad in
    let w2 :=
      warned ("(PGDuckDB/CreatePlan) Cache lookup failed for type " +:+ pretty o)
        (prepared_world world text) in
    CreatePlan (BO := ops (Some text) unsupported_column) 1%positive () world =
      Ret None w2 ∧
    DuckdbPlanNode (BO := ops (Some text) unsupported_column) 1%positive 0 () world =
      Ret None w2 ∧
    elog_out w2 =
      elog_out (prepared_world world text) ++
        [(WARNING, "(PGDuckDB/CreatePlan) Cache lookup failed for type " +:+ pretty o)] ∧
    (OidIsValid o = false → o = 0%N).
Proof.
  apply (unmapped_column_gives_no_plan (BO := ops (Some text) unsupported_column)
           1%positive 0 () world unsupported_column text _ UNION_TYPE).
  - vm_compute. reflexivity.
  - reflexivity.
  - repeat constructor.
  - left. reflexivity.
Defined.

(** C4 on the demo session. *)
Lemma DuckdbPrepare_keeps_caller_tree_witness :
  heap world !! 1%positive = Some query ∧
  copy_addr world ≠ 1%positive ∧
  match DuckdbPrepare (BO := bridge) 1%positive () world with
  | Ret _ w' =>
      heap w' !! 1%positive = Some query ∧
      (∀ p, is_Some (heap world !! p) → heap w' !! p = heap world !! p) ∧
      heap w' !! copy_addr world =
        Some (subquery_planner (BridgeOps := bridge) (planner_glob ()) query).1
  | Throw w' =>
      heap w' !! 1%positive = Some query ∧
      (∀ p, is_Some (heap world !! p) → heap w' !! p = heap world !! p)
  | Fault => jointree query = None
  end.
Proof.
  split; [reflexivity|].
  apply (DuckdbPrepare_keeps_caller_tree (BO := bridge) 1%positive () world query).
  reflexivity.
Defined.

(** C5: in the demo session, where a deparser that succeeds runs, the
    setting, the nest level and the saved values come back. *)
Lemma search_path_restored_when_deparser_returns_witness :
  guc_consistent world ∧
  search_path (prepared_world world text) = search_path world ∧
  GUCNestLevel (prepared_world world text) = GUCNestLevel world ∧
  search_path_stack (prepared_world world text) = search_path_stack world.
Proof.
  assert (Hc : guc_consistent world) by (cbn; lia).
  split; [exact Hc|].
  apply (search_path_restored_when_deparser_returns (BO := bridge)
           1%positive () world query).
  - reflexivity.
  - exact Hc.
  - eexists. reflexivity.
  - vm_compute. reflexivity.
Defined.

(** C5 as claimed fails: when the deparser raises a host error,
    [DuckdbPrepare] is left with [search_path] still empty. *)
Lemma search_path_stays_cleared_on_deparse_error :
  guc_consistent world ∧
  search_path world = "public" ∧
  search_path <$> final_world (DuckdbPrepare (BO := ops None two_columns) 1%positive () world)
    = Some "".
Proof. split_and!; [cbn; lia | reflexivity | vm_compute; reflexivity]. Qed.

(** C7 with the toggle set, and the next call after an assignment. *)
Lemma explain_prefix_follows_toggle_witness :
  let wrapped (analyze : bool) :=
    (if analyze then "EXPLAIN ANALYZE " else "EXPLAIN ") +:+ text in
  ∃ conn w',
    DuckdbPrepare (BO := bridge) 1%positive () (explain_world true) =
      Ret (Prepare (BridgeOps := bridge) conn (wrapped true), conn) w' ∧
    prepared_text (engine_calls w') = Some (wrapped true) ∧
    duckdb_explain_analyze w' = true ∧
    ∀ analyze, ∃ conn2 w2,
      DuckdbPrepare (BO := bridge) 1%positive () (with_explain_analyze analyze w') =
        Ret (Prepare (BridgeOps := bridge) conn2 (wrapped analyze), conn2) w2 ∧
      prepared_text (engine_calls w2) = Some (wrapped analyze).
Proof.
  apply (explain_prefix_follows_toggle (BO := bridge) 1%positive () (explain_world true)
           query where_clause text query 7%nat
           {| commandTag := CMDTAG_EXPLAIN |}); reflexivity.
Defined.

(** C6 on the demo session. *)
Lemma DuckdbPlanNode_packages_plan_witness :
  CreatePlan (BO := bridge) 1%positive () world =
    Ret (Some (planTree demo_stmt)) (prepared_world world text) ∧
  ps_commandType demo_stmt = commandType query ∧
  hasReturning demo_stmt = bool_decide (returningList query ≠ []) ∧
  ps_hasModifyingCTE demo_stmt = hasModifyingCTE query ∧
  ps_canSetTag demo_stmt = canSetTag query ∧
  subplans demo_stmt = [] ∧ rowMarks demo_stmt = [] ∧ resultRelations demo_stmt = [] ∧
  relationOids demo_stmt = [] ∧ ps_rtable demo_stmt = [] ∧ rewindPlanIDs demo_stmt = [] ∧
  invalItems demo_stmt = [] ∧ paramExecTypes demo_stmt = [] ∧
  permInfos demo_stmt = [] ∧ appendRelations demo_stmt = [].
Proof.
  apply (DuckdbPlanNode_packages_plan (BO := bridge) 1%positive 0 () world query).
  - reflexivity.
  - vm_compute. reflexivity.
Defined.

(** C10 on the demo session. *)
Lemma DuckdbPlanNode_copies_identity_witness :
  ps_queryId demo_stmt = queryId query ∧
  ps_utilityStmt demo_stmt = utilityStmt query ∧
  ps_stmt_location demo_stmt = stmt_location query ∧
  ps_stmt_len demo_stmt = stmt_len query ∧
  transientPlan demo_stmt = false ∧
  dependsOnRole demo_stmt = false ∧
  parallelModeNeeded demo_stmt = false ∧
  (hasReturning demo_stmt = true ↔ returningList query ≠ []).
Proof.
  apply (DuckdbPlanNode_copies_identity (BO := bridge) 1%positive 0 () world query
           demo_stmt (prepared_world world text)).
  - reflexivity.
  - vm_compute. reflexivity.
Defined.

End DemoRuns.

(** * The bridge on the second host *)

Module ProbeRuns.
Import Probe.

(** The connection carries the caller's range table, the planner's root,
    the variables of the tree as the caller passed it (the planner has
    emptied the copy by then) and the text; the caller's tree is intact
    and the rewrite sits in the copy. *)
Example probe_prepare :
  DuckdbPrepare (BO := ops one_column) 1%positive () world =
    Ret (one_column, (["t"], 7%nat, [Demo.col 1; Demo.col 2; Demo.col 1], Demo.text))
        prepared_world ∧
  heap prepared_world !! 1%positive = Some query ∧
  heap prepared_world !! 2%positive = Some (planned query).
Proof. split_and!; vm_compute; reflexivity. Qed.

(** Two different engine types without a mapping leave the same log. *)
Example two_unmappable_types_one_warning :
  let log (p : PreparedStatement) :=
    elog_out <$> final_world (CreatePlan (BO := ops p) 1%positive () world) in
  log union_first =
    Some [(DEBUG2, "(PGDuckDB/DuckdbPrepare) Preparing: " +:+ Demo.text);
          (WARNING, "(PGDuckDB/CreatePlan) Cache lookup failed for type 0")] ∧
  log varchar_first = log union_first.
Proof. split; vm_compute; reflexivity. Qed.

(** C3 on a handle whose first column is a UNION. *)
Lemma unmappable_type_warning_is_constant_witness :
  let w2 := warned "(PGDuckDB/CreatePlan) Cache lookup failed for type 0"
              prepared_world in
  CreatePlan (BO := ops union_first) 1%positive () world = Ret None w2 ∧
  DuckdbPlanNode (BO := ops union_first) 1%positive 0 () world = Ret None w2.
Proof.
  apply (unmappable_type_warning_is_constant (BO := ops union_first)
           1%positive 0 () world union_first connection prepared_world
           0%nat Demo.UNION_TYPE).
  - vm_compute. reflexivity.
  - reflexivity.
  - vm_compute. reflexivity.
  - reflexivity.
Defined.

(** C8 on the second host, whose connection shows the arguments. *)
Lemma adapter_receives_pulled_vars_witness :
  ∃ jt root query_string,
    jointree query = Some jt ∧
    (subquery_planner (BridgeOps := ops one_column) (planner_glob ()) query).2 =
      Some root ∧
    let flags :=
      Z.lor (Z.lor PVC_RECURSE_AGGREGATES PVC_RECURSE_WINDOWFUNCS)
        PVC_RECURSE_PLACEHOLDERS in
    let vars :=
      pull_var_clause (BridgeOps := ops one_column) (targetList query) flags ++
      pull_var_clause (BridgeOps := ops one_column) (quals jt) flags in
    (["t"], 7%nat, [Demo.col 1; Demo.col 2; Demo.col 1], Demo.text) =
      DuckdbCreateConnection (BridgeOps := ops one_column)
        (rtable query) root vars query_string ∧
    one_column = Prepare (BridgeOps := ops one_column) connection query_string ∧
    engine_calls prepared_world =
      engine_calls world ++
        [CallCreateConnection (rtable query) root vars query_string;
         CallPrepare connection query_string].
Proof.
  apply (adapter_receives_pulled_vars (BO := ops one_column) 1%positive () world query
           one_column connection prepared_world).
  - reflexivity.
  - vm_compute. reflexivity.
Defined.

End ProbeRuns.

(** * Outcomes of a whole planning attempt *)

Section MoreFacts.
Context {BT : BridgeTypes} {BO : BridgeOps}.
Implicit Types (w : World) (tree : Query) (query parse : QueryPtr).

Lemma AttrNumber_of_int_small z : -32768 ≤ z < 32768 → AttrNumber_of_int z = z.
Proof. intros Hz. unfold AttrNumber_of_int. rewrite Z.mod_small by lia. lia. Qed.

Lemma AttrNumber_of_int_range z : -32768 ≤ AttrNumber_of_int z < 32768.
Proof.
  unfold AttrNumber_of_int.
  pose proof (Z.mod_pos_bound (z + 32768) 65536). lia.
Qed.

Lemma world_rolled_back_rest w tree :
  elog_out (world_rolled_back w tree) = elog_out w ∧
  engine_calls (world_rolled_back w tree) = engine_calls w ∧
  ActivePortal (world_rolled_back w tree) = ActivePortal w ∧
  duckdb_explain_analyze (world_rolled_back w tree) = duckdb_explain_analyze w.
Proof. unfold world_rolled_back. by destruct (unwind_stack _ _ _). Qed.

Lemma DuckdbPrepare_invalid query bound_params w :
  heap w !! query = None → DuckdbPrepare query bound_params w = Fault.
Proof.
  intros Hq. unfold DuckdbPrepare, copyObjectImpl, mbind, PG_bind, deref.
  by rewrite Hq.
Qed.

Lemma CreatePlan_of_Throw query bound_params w w' :
  DuckdbPrepare query bound_params w = Throw w' →
  CreatePlan query bound_params w = Throw w'.
Proof. intros Hp. unfold CreatePlan, mbind, PG_bind. by rewrite Hp. Qed.

Lemma CreatePlan_of_Fault query bound_params w :
  DuckdbPrepare query bound_params w = Fault →
  CreatePlan query bound_params w = Fault.
Proof. intros Hp. unfold CreatePlan, mbind, PG_bind. by rewrite Hp. Qed.

(** The three ways [CreatePlan] ends once the prepare call has returned. *)
Lemma CreatePlan_cases query bound_params w p conn w1 :
  DuckdbPrepare query bound_params w = Ret (p, conn) w1 →
  (∃ e, error p = Some e ∧
        CreatePlan query bound_params w = Ret None (warned (prepare_error_msg e) w1)) ∨
  (∃ i bad, error p = None ∧
        list_find (unmapped w) (GetTypes p) = Some (i, bad) ∧
        CreatePlan query bound_params w =
          Ret None (warned (lookup_failed_msg (GetPostgresDuckDBType bad)) w1)) ∨
  (∃ tl, error p = None ∧
        Forall (usable w) (GetTypes p) ∧
        CreatePlan query bound_params w = Ret (Some (duckdb_node query tl)) w1 ∧
        length tl = length (columns p) ∧
        ∀ j c, columns p !! j = Some c →
          ∃ typtup,
            pg_type w !! GetPostgresDuckDBType c.1 = Some typtup ∧
            tl !! j = Some (schema_entry j (GetPostgresDuckDBType c.1) typtup c.2)).
Proof.
  intros Hp.
  assert (Hf : final_world (DuckdbPrepare query bound_params w) = Some w1)
    by (by rewrite Hp).
  apply DuckdbPrepare_frame in Hf as [Hcat _].
  destruct (error p) as [e|] eqn:He.
  { left. exists e. split; [done|]. by apply (CreatePlan_after_error _ _ _ p conn). }
  right. rewrite (CreatePlan_after_columns _ _ _ _ _ _ Hp He).
  assert (Hext : list_find (unmapped w1) (GetTypes p) = list_find (unmapped w) (GetTypes p)).
  { apply list_find_ext. intros t. unfold unmapped. by rewrite Hcat. }
  destruct (list_find (unmapped w) (GetTypes p)) as [[i bad]|] eqn:Hfind.
  - left. exists i, bad. split_and!; [done..|].
    by rewrite (CreatePlan_columns_fail p w1 (columns p) [] [] i bad).
  - right.
    assert (Hu : Forall (usable w) (GetTypes p)).
    { apply Forall_forall. intros t Ht. apply usable_not_unmapped. intros Hbad.
      destruct (list_find_elem_of (unmapped w) _ _ Ht Hbad) as [x Hx]. congruence. }
    destruct (CreatePlan_columns_ok p w1 (columns p) [] []) as (tl & Hrun & Hlen & Hent).
    { done. }
    { eapply Forall_impl; [exact Hu|]. intros t. by apply usable_frame. }
    exists tl. unfold GetTypes in *. cbn in Hrun. rewrite Hrun.
    split_and!; [done..|].
    intros j c Hc. destruct (Hent j c Hc) as (typtup & Ht & Hl).
    exists typtup. rewrite <- Hcat. by rewrite Nat.add_0_l in Hl.
Qed.

(** [DuckdbPlanNode] in terms of [CreatePlan]; the caller's tree is read
    from the state before the call, which is as good as after. *)
Lemma DuckdbPlanNode_of_CreatePlan parse cursor_options bound_params w :
  DuckdbPlanNode parse cursor_options bound_params w =
  match CreatePlan parse bound_params w with
  | Ret (Some node) w1 =>
      match heap w !! parse with
      | Some tree => Ret (Some (packaged tree node)) w1
      | None => Fault
      end
  | Ret None w1 => Ret None w1
  | Throw w1 => Throw w1
  | Fault => Fault
  end.
Proof.
  unfold DuckdbPlanNode, mbind, PG_bind.
  destruct (CreatePlan parse bound_params w) as [[node|] w1|w1|] eqn:Hc; [|done..].
  assert (Hf : final_world (CreatePlan parse bound_params w) = Some w1)
    by (by rewrite Hc).
  destruct (heap w !! parse) as [tree|] eqn:Hq.
  - assert (Hq1 : heap w1 !! parse = Some tree)
      by (rewrite <- Hq; apply (CreatePlan_frame _ _ _ _ Hf); by eauto).
    unfold deref. by rewrite Hq1.
  - rewrite (CreatePlan_of_Fault _ _ _ (DuckdbPrepare_invalid _ _ _ Hq)) in Hc.
    discriminate.
Qed.

Lemma schema_names w (cols : list (LogicalType * string)) (tl : list TargetEntry) :
  length tl = length cols →
  (∀ j c, cols !! j = Some c →
     ∃ typtup,
       pg_type w !! GetPostgresDuckDBType c.1 = Some typtup ∧
       tl !! j = Some (schema_entry j (GetPostgresDuckDBType c.1) typtup c.2)) →
  resname <$> tl = cols.*2.
Proof.
  intros Hlen Hent. apply list_eq. intros i. rewrite !list_lookup_fmap.
  destruct (cols !! i) as [c|] eqn:Hc.
  - destruct (Hent i c Hc) as (typtup & _ & Hl). by rewrite Hl.
  - apply lookup_ge_None_1 in Hc. rewrite (lookup_ge_None_2 tl i) by lia. done.
Qed.

(** What a return of [DuckdbPrepare] tells about the run. *)
Lemma DuckdbPrepare_Ret_inv query bound_params w p conn w1 :
  DuckdbPrepare query bound_params w = Ret (p, conn) w1 →
  ∃ tree text jt tree' root,
    heap w !! query = Some tree ∧
    pgduckdb_pg_get_querydef tree false "" = Some text ∧
    jointree tree = Some jt ∧
    subquery_planner (planner_glob bound_params) tree = (tree', Some root) ∧
    let vars := pull_var_clause (targetList tree) pull_flags ++
                pull_var_clause (quals jt) pull_flags in
    conn = DuckdbCreateConnection (rtable tree) root vars (explain_wrap w text) ∧
    p = Prepare conn (explain_wrap w text) ∧
    w1 = world_prepared w tree text tree'
           [CallCreateConnection (rtable tree) root vars (explain_wrap w text);
            CallPrepare conn (explain_wrap w text)].
Proof.
  destruct (heap w !! query) as [tree|] eqn:Hq;
    [|by rewrite (DuckdbPrepare_invalid _ _ _ Hq)].
  rewrite (DuckdbPrepare_unfold _ _ _ _ Hq). unfold DuckdbPrepare_run.
  destruct (pgduckdb_pg_get_querydef tree false "") as [text|] eqn:Hd; [|done].
  destruct (jointree tree) as [jt|] eqn:Hj; [|done].
  destruct (subquery_planner _ tree) as [tree' [root|]] eqn:Hs; [|done].
  intros [= <- <- <-]. by exists tree, text, jt, tree', root.
Qed.

(** What a host error out of [DuckdbPrepare] tells about the run. *)
Lemma DuckdbPrepare_Throw_inv query bound_params w w' :
  DuckdbPrepare query bound_params w = Throw w' →
  ∃ tree,
    heap w !! query = Some tree ∧
    ((pgduckdb_pg_get_querydef tree false "" = None ∧ w' = world_overridden w tree) ∨
     (∃ text tree',
        pgduckdb_pg_get_querydef tree false "" = Some text ∧
        is_Some (jointree tree) ∧
        subquery_planner (planner_glob bound_params) tree = (tree', None) ∧
        w' = world_planned w tree text tree')).
Proof.
  destruct (heap w !! query) as [tree|] eqn:Hq;
    [|by rewrite (DuckdbPrepare_invalid _ _ _ Hq)].
  rewrite (DuckdbPrepare_unfold _ _ _ _ Hq). unfold DuckdbPrepare_run.
  destruct (pgduckdb_pg_get_querydef tree false "") as [text|] eqn:Hd.
  - destruct (jointree tree) as [jt|] eqn:Hj; [|done].
    destruct (subquery_planner _ tree) as [tree' [root|]] eqn:Hs; [done|].
    intros [= <-]. exists tree. split; [done|]. right. by exists text, tree'.
  - intros [= <-]. exists tree. split; [done|]. by left.
Qed.

(** [AtEOXact_GUC(false, save_nestlevel)] is what takes the overridden
    state to the rolled-back one. *)
Lemma rollback_of_overridden w tree :
  AtEOXact_GUC_rollback (S (GUCNestLevel w)) (world_overridden w tree) =
  Ret () (world_rolled_back w tree).
Proof.
  unfold AtEOXact_GUC_rollback, world_rolled_back.
  by destruct (unwind_stack _ _ _).
Qed.

(** The kind of outcome of [DuckdbPlanNode] is that of [DuckdbPrepare]. *)
Lemma DuckdbPlanNode_kind parse cursor_options bound_params w :
  match DuckdbPrepare parse bound_params w with
  | Ret (p, conn) w1 =>
      ∃ r, DuckdbPlanNode parse cursor_options bound_params w =
             Ret r (with_elog (elog_out w1 ++
                      match r with
                      | Some _ => []
                      | None =>
                          [(WARNING,
                            match error p with
                            | Some e => prepare_error_msg e
                            | None =>
                                match list_find (unmapped w) (GetTypes p) with
                                | Some (_, bad) =>
                                    lookup_failed_msg (GetPostgresDuckDBType bad)
                                | None => EmptyString
                                end
                            end)]
                      end) w1)
  | Throw w' => DuckdbPlanNode parse cursor_options bound_params w = Throw w'
  | Fault => DuckdbPlanNode parse cursor_options bound_params w = Fault
  end.
Proof.
  rewrite DuckdbPlanNode_of_CreatePlan.
  destruct (DuckdbPrepare parse bound_params w) as [[p conn] w1|w'|] eqn:Hp.
  - destruct (DuckdbPrepare_Ret_inv _ _ _ _ _ _ Hp) as (tree & ? & ? & ? & ? & Hq & _).
    destruct (CreatePlan_cases _ _ _ _ _ _ Hp)
      as [(e & He & Hc)|[(i & bad & He & Hfind & Hc)|(tl & He & _ & Hc & _)]];
      rewrite Hc.
    + exists None. by rewrite He.
    + exists None. by rewrite He, Hfind.
    + rewrite Hq. eexists (Some _). rewrite app_nil_r. by destruct w1.
  - by rewrite (CreatePlan_of_Throw _ _ _ _ Hp).
  - by rewrite (CreatePlan_of_Fault _ _ _ Hp).
Qed.

Lemma DuckdbPlanNode_final parse cursor_options bound_params w w' :
  final_world (DuckdbPlanNode parse cursor_options bound_params w) = Some w' →
  ∃ w1,
    final_world (DuckdbPrepare parse bound_params w) = Some w1 ∧
    w' = with_elog (elog_out w') w1.
Proof.
  pose proof (DuckdbPlanNode_kind parse cursor_options bound_params w) as Hk.
  destruct (DuckdbPrepare parse bound_params w) as [[p conn] w1|w1|].
  - destruct Hk as [r ->]. cbn. intros [= <-]. by exists w1.
  - rewrite Hk. cbn. intros [= <-]. exists w1. split; [done|]. by destruct w1.
  - by rewrite Hk.
Qed.

Lemma explain_wrap_same w w' text :
  ActivePortal w' = ActivePortal w →
  duckdb_explain_analyze w' = duckdb_explain_analyze w →
  explain_wrap w' text = explain_wrap w text.
Proof. intros Hp Ha. unfold explain_wrap. by rewrite Hp, Ha. Qed.

Lemma explain_wrap_cases w text :
  explain_wrap w text = text ∨
  explain_wrap w text = "EXPLAIN " +:+ text ∨
  explain_wrap w text = "EXPLAIN ANALYZE " +:+ text.
Proof.
  unfold explain_wrap, psprintf_s.
  destruct (ActivePortal w) as [portal|]; [|by left].
  case_decide; [|by left].
  destruct (duckdb_explain_analyze w); [right; by right | right; by left].
Qed.

Lemma CreatePlan_Ret_inv query bound_params w r w' :
  CreatePlan query bound_params w = Ret r w' →
  ∃ p conn w1, DuckdbPrepare query bound_params w = Ret (p, conn) w1.
Proof.
  destruct (DuckdbPrepare query bound_params w) as [[p conn] w1|w1|] eqn:Hp.
  - by eauto.
  - by rewrite (CreatePlan_of_Throw _ _ _ _ Hp).
  - by rewrite (CreatePlan_of_Fault _ _ _ Hp).
Qed.

Lemma dom_world_planned w tree text tree' :
  dom (heap (world_planned w tree text tree')) = {[copy_addr w]} ∪ dom (heap w).
Proof.
  unfold world_planned, world_logged. cbn.
  by rewrite heap_world_rolled_back, insert_insert_eq, dom_insert_L.
Qed.

End MoreFacts.

Section WholeAttempt.
Context {BT : BridgeTypes} {BO : BridgeOps}.
Implicit Types (w : World) (tree : Query) (query parse : QueryPtr).

(** X1. Once the prepare call has returned a handle without error whose
    result types are all valid and catalogued, [DuckdbPlanNode] returns a
    statement, in the state the prepare call left, whose plan tree lists
    the handle's column names in order and points back at the caller's
    pointer. *)
Theorem good_handle_gives_statement parse cursor_options bound_params w p conn w1 :
  DuckdbPrepare parse bound_params w = Ret (p, conn) w1 →
  error p = None →
  Forall (usable w) (GetTypes p) →
  ∃ tree stmt,
    heap w !! parse = Some tree ∧
    DuckdbPlanNode parse cursor_options bound_params w = Ret (Some stmt) w1 ∧
    resname <$> custom_scan_tlist (planTree stmt) = GetNames p ∧
    custom_private (planTree stmt) = [parse] ∧
    ps_commandType stmt = commandType tree.
Proof.
  intros Hp He Hu.
  destruct (DuckdbPrepare_Ret_inv _ _ _ _ _ _ Hp) as (tree & ? & ? & ? & ? & Hq & _).
  rewrite DuckdbPlanNode_of_CreatePlan, Hq.
  destruct (CreatePlan_cases _ _ _ _ _ _ Hp)
    as [(e & He' & _)|[(i & bad & _ & Hfind & _)|(tl & _ & _ & Hc & Hlen & Hent)]].
  - congruence.
  - apply list_find_Some in Hfind as (Hl & Hbad & _).
    apply list_elem_of_lookup_2 in Hl.
    rewrite Forall_forall in Hu. apply Hu, usable_not_unmapped in Hl. done.
  - rewrite Hc. exists tree. eexists. split_and!; [done | reflexivity | | done..].
    cbn. by apply (schema_names w).
Qed.

(** X2. Once the prepare call has returned, [DuckdbPlanNode] always
    returns (it neither raises nor faults), and it returns null exactly
    when the handle carries an error or some result type is unmapped. *)
Theorem null_iff_error_or_unmapped parse cursor_options bound_params w p conn w1 :
  DuckdbPrepare parse bound_params w = Ret (p, conn) w1 →
  ∃ r w',
    DuckdbPlanNode parse cursor_options bound_params w = Ret r w' ∧
    (r = None ↔ is_Some (error p) ∨ Exists (unmapped w) (GetTypes p)).
Proof.
  intros Hp.
  destruct (DuckdbPrepare_Ret_inv _ _ _ _ _ _ Hp) as (tree & ? & ? & ? & ? & Hq & _).
  rewrite DuckdbPlanNode_of_CreatePlan, Hq.
  destruct (CreatePlan_cases _ _ _ _ _ _ Hp)
    as [(e & He & Hc)|[(i & bad & He & Hfind & Hc)|(tl & He & Hu & Hc & _)]];
    rewrite Hc; eexists _, _; (split; [reflexivity|]).
  - split; [|done]. intros _. left. by eauto.
  - split; [|done]. intros _. right.
    apply list_find_Some in Hfind as (Hl & Hbad & _).
    apply Exists_exists. exists bad. split; [|done].
    by apply list_elem_of_lookup_2 in Hl.
  - split; [done|]. intros [[e He']|Hex]; [congruence|].
    apply Exists_exists in Hex as (t & Ht & Hbad).
    rewrite Forall_forall in Hu. by apply Hu, usable_not_unmapped in Ht.
Qed.

(** X3. Every return of [DuckdbPlanNode] has made exactly two engine
    calls - one connection, one prepare, on the same text - and has logged
    that text once at DEBUG2; a statement comes with no warning, a null
    with exactly one. *)
Theorem null_is_never_silent parse cursor_options bound_params w r w' :
  DuckdbPlanNode parse cursor_options bound_params w = Ret r w' →
  ∃ rtables root vars conn query_string,
    engine_calls w' =
      engine_calls w ++
        [CallCreateConnection rtables root vars query_string;
         CallPrepare conn query_string] ∧
    let line := (DEBUG2, "(PGDuckDB/DuckdbPrepare) Preparing: " +:+ query_string) in
    match r with
    | Some _ => elog_out w' = elog_out w ++ [line]
    | None => ∃ msg, elog_out w' = elog_out w ++ [line; (WARNING, msg)]
    end.
Proof.
  intros Hrun.
  pose proof (DuckdbPlanNode_kind parse cursor_options bound_params w) as Hk.
  destruct (DuckdbPrepare parse bound_params w) as [[p conn] w1|w1|] eqn:Hp;
    [|congruence..].
  destruct Hk as [r' Hk]. rewrite Hk in Hrun. injection Hrun as <- <-.
  destruct (DuckdbPrepare_Ret_inv _ _ _ _ _ _ Hp)
    as (tree & text & jt & tree' & root & _ & _ & _ & _ & _ & _ & ->).
  eexists _, _, _, _, _. split.
  - cbn. reflexivity.
  - cbn. destruct r'.
    + by rewrite app_nil_r.
    + eexists. by rewrite <- app_assoc.
Qed.

(** X4. On an allocated tree, [DuckdbPlanNode] leaves through a host
    error exactly when the deparser raises one, or the deparser returns,
    the join tree is there and [subquery_planner] raises one. *)
Theorem host_error_iff parse cursor_options bound_params w tree :
  heap w !! parse = Some tree →
  (∃ w', DuckdbPlanNode parse cursor_options bound_params w = Throw w') ↔
  pgduckdb_pg_get_querydef tree false "" = None ∨
  (is_Some (pgduckdb_pg_get_querydef tree false "") ∧
   is_Some (jointree tree) ∧
   (subquery_planner (planner_glob bound_params) tree).2 = None).
Proof.
  intros Hq.
  pose proof (DuckdbPlanNode_kind parse cursor_options bound_params w) as Hk.
  rewrite (DuckdbPrepare_unfold _ _ _ _ Hq) in Hk. unfold DuckdbPrepare_run in Hk.
  destruct (pgduckdb_pg_get_querydef tree false "") as [text|].
  - destruct (jointree tree) as [jt|].
    + destruct (subquery_planner _ tree) as [tree' [root|]]; cbn in *.
      * destruct Hk as [r ->]. split; [by intros [w' [=]]|].
        intros [[=]|(_ & _ & [=])].
      * rewrite Hk. split; [|by eauto]. intros _. right. by eauto.
    + rewrite Hk. split; [by intros [w' [=]]|].
      intros [[=]|(_ & [? [=]] & _)].
  - rewrite Hk. split; [|by eauto]. intros _. by left.
Qed.

(** X5. When the deparser raises its error, [DuckdbPlanNode] raises it
    too, with the override still in force: [search_path] is empty, the
    nest level is one deeper, nothing was logged and the planner has not
    touched the copy.  The saved value is not lost: from a consistent GUC
    state, rolling that nest level back gives the setting, the level and
    the stack of before the call. *)
Theorem deparse_error_leaves_override parse cursor_options bound_params w tree :
  heap w !! parse = Some tree →
  guc_consistent w →
  pgduckdb_pg_get_querydef tree false "" = None →
  ∃ w',
    DuckdbPlanNode parse cursor_options bound_params w = Throw w' ∧
    search_path w' = "" ∧
    GUCNestLevel w' = S (GUCNestLevel w) ∧
    elog_out w' = elog_out w ∧
    engine_calls w' = engine_calls w ∧
    heap w' !! copy_addr w = Some tree ∧
    ∃ w'',
      AtEOXact_GUC_rollback (S (GUCNestLevel w)) w' = Ret () w'' ∧
      search_path w'' = search_path w ∧
      GUCNestLevel w'' = GUCNestLevel w ∧
      search_path_stack w'' = search_path_stack w.
Proof.
  intros Hq Hc Hd.
  pose proof (DuckdbPlanNode_kind parse cursor_options bound_params w) as Hk.
  rewrite (DuckdbPrepare_unfold _ _ _ _ Hq) in Hk. unfold DuckdbPrepare_run in Hk.
  rewrite Hd in Hk.
  exists (world_overridden w tree). split_and!; [done..| |].
  - cbn. by rewrite lookup_insert_eq.
  - exists (world_rolled_back w tree). split; [apply rollback_of_overridden|].
    by apply guc_world_rolled_back.
Qed.

(** X6. A host error leaves [DuckdbPlanNode] before the engine is
    reached: no engine call was made, no warning was logged, and at most
    the one DEBUG2 line was written. *)
Theorem host_error_before_engine parse cursor_options bound_params w w' :
  DuckdbPlanNode parse cursor_options bound_params w = Throw w' →
  engine_calls w' = engine_calls w ∧
  (elog_out w' = elog_out w ∨
   ∃ line, elog_out w' = elog_out w ++ [(DEBUG2, line)]).
Proof.
  intros Hrun.
  pose proof (DuckdbPlanNode_kind parse cursor_options bound_params w) as Hk.
  destruct (DuckdbPrepare parse bound_params w) as [[p conn] w1|w1|] eqn:Hp.
  - destruct Hk as [r Hk]. congruence.
  - rewrite Hk in Hrun. injection Hrun as <-.
    destruct (DuckdbPrepare_Throw_inv _ _ _ _ Hp)
      as (tree & _ & [[_ ->]|(text & tree' & _ & _ & _ & ->)]).
    + split; [done|]. by left.
    + split; [cbn; apply world_rolled_back_rest|]. right. by eexists.
  - congruence.
Qed.

(** X7. [DuckdbPlanNode] dereferences a bad pointer in exactly two
    situations: the tree it is given is not allocated, or the deparser
    returns for a tree whose join tree is null. *)
Theorem fault_iff parse cursor_options bound_params w :
  DuckdbPlanNode parse cursor_options bound_params w = Fault ↔
  heap w !! parse = None ∨
  ∃ tree,
    heap w !! parse = Some tree ∧
    is_Some (pgduckdb_pg_get_querydef tree false "") ∧
    jointree tree = None.
Proof.
  pose proof (DuckdbPlanNode_kind parse cursor_options bound_params w) as Hk.
  destruct (heap w !! parse) as [tree|] eqn:Hq.
  - rewrite (DuckdbPrepare_unfold _ _ _ _ Hq) in Hk. unfold DuckdbPrepare_run in Hk.
    destruct (pgduckdb_pg_get_querydef tree false "") as [text|] eqn:Hd.
    + destruct (jointree tree) as [jt|] eqn:Hj.
      * destruct (subquery_planner _ tree) as [tree' [root|]]; cbn in *.
        -- destruct Hk as [r ->]. split; [done|].
           intros [[=]|(t & [= <-] & _ & Hn)]. congruence.
        -- rewrite Hk. split; [done|].
           intros [[=]|(t & [= <-] & _ & Hn)]. congruence.
      * rewrite Hk. split; [|done]. intros _. right. exists tree.
        rewrite Hd. split_and!; [done | by eexists | done].
    + rewrite Hk. split; [done|].
      intros [[=]|(t & [= <-] & [text Ht] & _)]. congruence.
  - rewrite (DuckdbPrepare_invalid _ _ _ Hq) in Hk. rewrite Hk. split; [|done].
    intros _. by left.
Qed.

(** X8. In a node returned by [CreatePlan], the entry for result column
    [i] (below the 32767th) is a reference to position [i + 1] of the
    scan's own output ([INDEX_VAR], level 0), typed with the column's host
    type and with the type modifier and collation of its catalog row,
    numbered [i + 1], named as the handle names the column, and not
    junk. *)
Theorem schema_entries_are_positional query bound_params w p conn w1 node w2 i c :
  DuckdbPrepare query bound_params w = Ret (p, conn) w1 →
  CreatePlan query bound_params w = Ret (Some node) w2 →
  columns p !! i = Some c →
  Z.of_nat i < 32767 →
  ∃ typtup,
    pg_type w !! GetPostgresDuckDBType c.1 = Some typtup ∧
    custom_scan_tlist node !! i =
      Some {| expr := {| varno := INDEX_VAR;
                         varattno := Z.of_nat i + 1;
                         vartype := GetPostgresDuckDBType c.1;
                         vartypmod := typtypmod typtup;
                         varcollid := typcollation typtup;
                         varlevelsup := 0 |};
              resno := Z.of_nat i + 1;
              resname := c.2;
              resjunk := false |}.
Proof.
  intros Hp Hc Hi Hlt.
  destruct (CreatePlan_cases _ _ _ _ _ _ Hp)
    as [(e & _ & Hc')|[(j & bad & _ & _ & Hc')|(tl & _ & _ & Hc' & _ & Hent)]];
    rewrite Hc' in Hc; [done..|].
  injection Hc as <- <-.
  destruct (Hent i c Hi) as (typtup & Ht & Hl). exists typtup. split; [done|].
  cbn. rewrite Hl. unfold schema_entry, makeTargetEntry, makeVar.
  by rewrite !AttrNumber_of_int_small by lia.
Qed.

(** X9. The number an entry carries is a 16-bit attribute number: it is
    the 1-based position of the entry exactly for positions below the
    32767th, and the variable inside the entry carries the same
    number. *)
Theorem resno_exact_iff_in_range query bound_params w p conn w1 node w2 i te :
  DuckdbPrepare query bound_params w = Ret (p, conn) w1 →
  CreatePlan query bound_params w = Ret (Some node) w2 →
  custom_scan_tlist node !! i = Some te →
  (resno te = Z.of_nat i + 1 ↔ Z.of_nat i < 32767) ∧
  varattno (expr te) = resno te ∧
  -32768 ≤ resno te < 32768.
Proof.
  intros Hp Hc Hi.
  destruct (CreatePlan_cases _ _ _ _ _ _ Hp)
    as [(e & _ & Hc')|[(j & bad & _ & _ & Hc')|(tl & _ & _ & Hc' & Hlen & Hent)]];
    rewrite Hc' in Hc; [done..|].
  injection Hc as <- <-. cbn in Hi.
  destruct (lookup_lt_is_Some_2 (columns p) i) as [c Hcol].
  { rewrite <- Hlen. by eapply lookup_lt_Some. }
  destruct (Hent i c Hcol) as (typtup & _ & Hl).
  rewrite Hl in Hi. injection Hi as <-. cbn.
  split; [|split; [done|apply AttrNumber_of_int_range]].
  split.
  - intros Heq. pose proof (AttrNumber_of_int_range (Z.of_nat i + 1)). lia.
  - intros Hlt. apply AttrNumber_of_int_small. lia.
Qed.

(** X10. The private payload of a returned plan is the one pointer the
    caller passed - never the address of the working copy - and in the
    state [DuckdbPlanNode] returns in, that pointer still leads to the
    tree the caller had, not to the planner's rewrite of it. *)
Theorem payload_is_callers_tree parse cursor_options bound_params w tree stmt w' :
  heap w !! parse = Some tree →
  DuckdbPlanNode parse cursor_options bound_params w = Ret (Some stmt) w' →
  custom_private (planTree stmt) = [parse] ∧
  methods (planTree stmt) = Some duckdb_scan_scan_methods ∧
  (copy_addr w ∉ custom_private (planTree stmt)) ∧
  ∀ q, q ∈ custom_private (planTree stmt) → heap w' !! q = Some tree.
Proof.
  intros Hq Hrun.
  destruct (DuckdbPlanNode_inv _ _ _ _ _ _ _ Hq Hrun) as (node & Hc & ->).
  destruct (CreatePlan_Ret_inv _ _ _ _ _ Hc) as (p & conn & w1 & Hp).
  destruct (CreatePlan_cases _ _ _ _ _ _ Hp)
    as [(e & _ & Hc')|[(j & bad & _ & _ & Hc')|(tl & _ & _ & Hc' & _)]];
    rewrite Hc' in Hc; [done..|].
  injection Hc as <- <-. cbn.
  assert (Hne : parse ≠ copy_addr w) by (apply copy_addr_ne; by eauto).
  split_and!; [done | done | |].
  - intros Hin. apply list_elem_of_singleton in Hin. congruence.
  - intros q Hin. apply list_elem_of_singleton in Hin as ->.
    assert (Hf : final_world (DuckdbPrepare parse bound_params w) = Some w1)
      by (by rewrite Hp).
    apply DuckdbPrepare_frame in Hf as [_ Hheap].
    rewrite <- Hq. apply Hheap. by eauto.
Qed.

(** X11. However [DuckdbPlanNode] ends, the heap has grown by exactly one
    tree, at an address that was free before: the working copy is the
    only allocation and nothing is released. *)
Theorem one_tree_allocated parse cursor_options bound_params w w' :
  final_world (DuckdbPlanNode parse cursor_options bound_params w) = Some w' →
  (copy_addr w ∉ dom (heap w)) ∧
  dom (heap w') = {[copy_addr w]} ∪ dom (heap w).
Proof.
  intros Hf. split; [apply is_fresh|].
  destruct (DuckdbPlanNode_final _ _ _ _ _ Hf) as (w1 & Hf1 & ->). cbn.
  destruct (DuckdbPrepare parse bound_params w) as [[p conn] w0|w0|] eqn:Hp;
    [| |done]; injection Hf1 as ->.
  - destruct (DuckdbPrepare_Ret_inv _ _ _ _ _ _ Hp)
      as (tree & text & jt & tree' & root & _ & _ & _ & _ & _ & _ & ->).
    apply (dom_world_planned w tree text tree').
  - destruct (DuckdbPrepare_Throw_inv _ _ _ _ Hp)
      as (tree & _ & [[_ ->]|(text & tree' & _ & _ & _ & ->)]).
    + cbn. by rewrite dom_insert_L.
    + apply dom_world_planned.
Qed.

(** X12. A call of [DuckdbPlanNode] that returns, with a statement or
    with null, leaves the session as it found it: [search_path], the GUC
    nest level and its stack (which stays consistent), the active portal,
    the analyze toggle and the type catalog. *)
Theorem session_survives_attempt parse cursor_options bound_params w r w' :
  guc_consistent w →
  DuckdbPlanNode parse cursor_options bound_params w = Ret r w' →
  search_path w' = search_path w ∧
  GUCNestLevel w' = GUCNestLevel w ∧
  search_path_stack w' = search_path_stack w ∧
  guc_consistent w' ∧
  ActivePortal w' = ActivePortal w ∧
  duckdb_explain_analyze w' = duckdb_explain_analyze w ∧
  pg_type w' = pg_type w.
Proof.
  intros Hc Hrun.
  pose proof (DuckdbPlanNode_kind parse cursor_options bound_params w) as Hk.
  destruct (DuckdbPrepare parse bound_params w) as [[p conn] w1|w1|] eqn:Hp;
    [|congruence..].
  destruct Hk as [r' Hk]. rewrite Hk in Hrun. injection Hrun as <- <-.
  destruct (DuckdbPrepare_Ret_inv _ _ _ _ _ _ Hp)
    as (tree & text & jt & tree' & root & _ & _ & _ & _ & _ & _ & ->).
  destruct (guc_world_rolled_back w tree Hc) as (Hs & Hl & Hst).
  destruct (world_rolled_back_rest w tree) as (_ & _ & Hportal & Htoggle).
  unfold guc_consistent. cbn. rewrite Hs, Hl, Hst.
  split_and!; [done..|apply pg_type_world_rolled_back].
Qed.

End WholeAttempt.

Section Materializer.
Context {BT : BridgeTypes} {BO : BridgeOps}.
Implicit Types (w : World) (tree : Query) (query parse : QueryPtr).

(** X13. Outside an EXPLAIN portal - no active portal, or one running
    another command - the text that is prepared is the deparsed text as it
    is, whatever the analyze toggle says. *)
Theorem no_explain_no_prefix query bound_params w p conn w' :
  (∀ portal, ActivePortal w = Some portal → commandTag portal ≠ CMDTAG_EXPLAIN) →
  DuckdbPrepare query bound_params w = Ret (p, conn) w' →
  ∃ tree text,
    heap w !! query = Some tree ∧
    pgduckdb_pg_get_querydef tree false "" = Some text ∧
    prepared_text (engine_calls w') = Some text ∧
    p = Prepare conn text.
Proof.
  intros Hportal Hp.
  destruct (DuckdbPrepare_Ret_inv _ _ _ _ _ _ Hp)
    as (tree & text & jt & tree' & root & Hq & Hd & _ & _ & _ & -> & ->).
  assert (Hw : explain_wrap w text = text).
  { unfold explain_wrap. destruct (ActivePortal w) as [portal|]; [|done].
    rewrite decide_False; [done|]. by apply Hportal. }
  exists tree, text. rewrite Hw in *. split_and!; [done..| |done].
  apply prepared_text_after.
Qed.

(** X14. What [DuckdbPrepare] returns does not depend on the session's
    [search_path] or on the GUC nesting it is called under: from any
    other setting, level and stack it returns the same handle and
    connection, makes the same engine calls and logs the same line. *)
Theorem result_independent_of_search_path query bound_params w p conn w'
    value level stack :
  DuckdbPrepare query bound_params w = Ret (p, conn) w' →
  ∃ w'',
    DuckdbPrepare query bound_params (with_guc value level stack w) =
      Ret (p, conn) w'' ∧
    engine_calls w'' = engine_calls w' ∧
    elog_out w'' = elog_out w'.
Proof.
  intros Hp.
  destruct (DuckdbPrepare_Ret_inv _ _ _ _ _ _ Hp)
    as (tree & text & jt & tree' & root & Hq & Hd & Hj & Hs & Hconn & -> & ->).
  assert (Hq' : heap (with_guc value level stack w) !! query = Some tree) by done.
  rewrite (DuckdbPrepare_unfold _ _ _ _ Hq'). unfold DuckdbPrepare_run.
  rewrite Hd, Hj, Hs.
  assert (Hw : explain_wrap (with_guc value level stack w) text = explain_wrap w text)
    by (by apply explain_wrap_same).
  rewrite Hw, <- Hconn. eexists. split; [reflexivity|]. done.
Qed.

(** X15. Planning the same tree again right after a call that returned
    prepares the same text and returns the same handle and connection;
    the second call works on a second copy and leaves the first one
    alone. *)
Theorem replanning_gives_same_text query bound_params w p conn w1 :
  DuckdbPrepare query bound_params w = Ret (p, conn) w1 →
  ∃ w2,
    DuckdbPrepare query bound_params w1 = Ret (p, conn) w2 ∧
    prepared_text (engine_calls w2) = prepared_text (engine_calls w1) ∧
    copy_addr w1 ≠ copy_addr w ∧
    heap w2 !! copy_addr w = heap w1 !! copy_addr w.
Proof.
  intros Hp.
  assert (Hf : final_world (DuckdbPrepare query bound_params w) = Some w1)
    by (by rewrite Hp).
  apply DuckdbPrepare_frame in Hf as [_ Hheap].
  destruct (DuckdbPrepare_Ret_inv _ _ _ _ _ _ Hp)
    as (tree & text & jt & tree' & root & Hq & Hd & Hj & Hs & Hconn & Hpq & Hw1).
  assert (Hq1 : heap w1 !! query = Some tree)
    by (rewrite <- Hq; apply Hheap; by eauto).
  assert (Hcopy : heap w1 !! copy_addr w = Some tree').
  { rewrite Hw1. cbn. by rewrite lookup_insert_eq. }
  assert (Hne : copy_addr w ≠ copy_addr w1) by (apply copy_addr_ne; by eauto).
  assert (Hw : explain_wrap w1 text = explain_wrap w text).
  { rewrite Hw1. apply explain_wrap_same; apply globals_world_prepared. }
  rewrite (DuckdbPrepare_unfold _ _ _ _ Hq1). unfold DuckdbPrepare_run.
  rewrite Hd, Hj, Hs, Hw, <- Hconn, <- Hpq.
  eexists. split_and!; [reflexivity | | done |].
  - rewrite Hw1 at 2. cbn -[world_planned prepared_text].
    cbn -[prepared_text]. by rewrite !prepared_text_after.
  - by apply heap_world_prepared.
Qed.

(** X16. The text behind a handle that [DuckdbPrepare] returns is what
    the deparser gives for the caller's tree under an empty
    [search_path] - whatever the session's own - bare or behind one of
    the two EXPLAIN prefixes; the handle is the engine's answer for that
    text on the connection returned with it. *)
Theorem prepared_text_is_deparsed_text query bound_params w p conn w' :
  DuckdbPrepare query bound_params w = Ret (p, conn) w' →
  ∃ tree text query_string,
    heap w !! query = Some tree ∧
    pgduckdb_pg_get_querydef tree false "" = Some text ∧
    (query_string = text ∨
     query_string = "EXPLAIN " +:+ text ∨
     query_string = "EXPLAIN ANALYZE " +:+ text) ∧
    p = Prepare conn query_string ∧
    prepared_text (engine_calls w') = Some query_string.
Proof.
  intros Hp.
  destruct (DuckdbPrepare_Ret_inv _ _ _ _ _ _ Hp)
    as (tree & text & jt & tree' & root & Hq & Hd & _ & _ & _ & -> & ->).
  exists tree, text, (explain_wrap w text).
  split_and!; [done | done | apply explain_wrap_cases | done |].
  apply prepared_text_after.
Qed.

End Materializer.

(** * The whole attempt on the demo session *)

Module MoreRuns.
Import Demo.

(** X1 on the two-column handle. *)
Lemma good_handle_gives_statement_witness :
  ∃ tree stmt,
    heap world !! 1%positive = Some tree ∧
    DuckdbPlanNode (BO := bridge) 1%positive 0 () world =
      Ret (Some stmt) (prepared_world world text) ∧
    resname <$> custom_scan_tlist (planTree stmt) = GetNames two_columns ∧
    custom_private (planTree stmt) = [1%positive] ∧
    ps_commandType stmt = commandType tree.
Proof.
  apply (good_handle_gives_statement (BO := bridge)
           1%positive 0 () world two_columns text).
  - vm_compute. reflexivity.
  - reflexivity.
  - repeat constructor; eexists; vm_compute; reflexivity.
Defined.

(** X2 on the handle with an unsupported column. *)
Lemma null_iff_error_or_unmapped_witness :
  ∃ r w',
    DuckdbPlanNode (BO := ops (Some text) unsupported_column) 1%positive 0 () world =
      Ret r w' ∧
    (r = None ↔
     is_Some (error unsupported_column) ∨
     Exists (unmapped (BO := ops (Some text) unsupported_column) world)
       (GetTypes unsupported_column)).
Proof.
  apply (null_iff_error_or_unmapped (BO := ops (Some text) unsupported_column)
           1%positive 0 () world unsupported_column text
           (prepared_world world text)).
  vm_compute. reflexivity.
Defined.

(** X3 on the demo plan. *)
Lemma null_is_never_silent_witness :
  ∃ rtables root vars conn query_string,
    engine_calls (prepared_world world text) =
      engine_calls world ++
        [CallCreateConnection rtables root vars query_string;
         CallPrepare conn query_string] ∧
    let line := (DEBUG2, "(PGDuckDB/DuckdbPrepare) Preparing: " +:+ query_string) in
    elog_out (prepared_world world text) = elog_out world ++ [line].
Proof.
  apply (null_is_never_silent (BO := bridge) 1%positive 0 () world
           (Some demo_stmt) (prepared_world world text)).
  vm_compute. reflexivity.
Defined.

(** X4 with a deparser that raises. *)
Lemma host_error_iff_witness :
  (∃ w', DuckdbPlanNode (BO := ops None two_columns) 1%positive 0 () world = Throw w') ↔
  pgduckdb_pg_get_querydef (BridgeOps := ops None two_columns) query false "" = None ∨
  (is_Some (pgduckdb_pg_get_querydef (BridgeOps := ops None two_columns) query false "") ∧
   is_Some (jointree query) ∧
   (subquery_planner (BridgeOps := ops None two_columns) (planner_glob ()) query).2 = None).
Proof.
  apply (host_error_iff (BO := ops None two_columns) 1%positive 0 () world query).
  reflexivity.
Defined.

(** X5 with a deparser that raises. *)
Lemma deparse_error_leaves_override_witness :
  ∃ w',
    DuckdbPlanNode (BO := ops None two_columns) 1%positive 0 () world = Throw w' ∧
    search_path w' = "" ∧
    GUCNestLevel w' = S (GUCNestLevel world) ∧
    elog_out w' = elog_out world ∧
    engine_calls w' = engine_calls world ∧
    heap w' !! copy_addr world = Some query ∧
    ∃ w'',
      AtEOXact_GUC_rollback (S (GUCNestLevel world)) w' = Ret () w'' ∧
      search_path w'' = search_path world ∧
      GUCNestLevel w'' = GUCNestLevel world ∧
      search_path_stack w'' = search_path_stack world.
Proof.
  apply (deparse_error_leaves_override (BO := ops None two_columns)
           1%positive 0 () world query).
  - reflexivity.
  - cbn. lia.
  - reflexivity.
Defined.

(** X6 with a deparser that raises. *)
Lemma host_error_before_engine_witness :
  engine_calls (world_overridden world query) = engine_calls world ∧
  (elog_out (world_overridden world query) = elog_out world ∨
   ∃ line, elog_out (world_overridden world query) = elog_out world ++ [(DEBUG2, line)]).
Proof.
  apply (host_error_before_engine (BO := ops None two_columns) 1%positive 0 () world).
  vm_compute. reflexivity.
Defined.

(** X8 on the second column of the demo plan. *)
Lemma schema_entries_are_positional_witness :
  ∃ typtup,
    pg_type world !! 25%N = Some typtup ∧
    custom_scan_tlist (planTree demo_stmt) !! 1%nat =
      Some {| expr := {| varno := INDEX_VAR;
                         varattno := 2;
                         vartype := 25%N;
                         vartypmod := typtypmod typtup;
                         varcollid := typcollation typtup;
                         varlevelsup := 0 |};
              resno := 2;
              resname := "b";
              resjunk := false |}.
Proof.
  apply (schema_entries_are_positional (BO := bridge) 1%positive () world
           two_columns text (prepared_world world text)
           (planTree demo_stmt) (prepared_world world text) 1%nat (VARCHAR, "b")).
  - vm_compute. reflexivity.
  - vm_compute. reflexivity.
  - reflexivity.
  - reflexivity.
Defined.

(** X9 on the first column of the demo plan. *)
Lemma resno_exact_iff_in_range_witness :
  let te := schema_entry 0 23%N {| typtypmod := -1; typcollation := 0%N |} "a" in
  (resno te = Z.of_nat 0 + 1 ↔ Z.of_nat 0 < 32767) ∧
  varattno (expr te) = resno te ∧
  -32768 ≤ resno te < 32768.
Proof.
  apply (resno_exact_iff_in_range (BO := bridge) 1%positive () world
           two_columns text (prepared_world world text)
           (planTree demo_stmt) (prepared_world world text) 0%nat).
  - vm_compute. reflexivity.
  - vm_compute. reflexivity.
  - reflexivity.
Defined.

(** X10 on the demo plan. *)
Lemma payload_is_callers_tree_witness :
  custom_private (planTree demo_stmt) = [1%positive] ∧
  methods (planTree demo_stmt) = Some duckdb_scan_scan_methods ∧
  (copy_addr world ∉ custom_private (planTree demo_stmt)) ∧
  ∀ q, q ∈ custom_private (planTree demo_stmt) →
       heap (prepared_world world text) !! q = Some query.
Proof.
  apply (payload_is_callers_tree (BO := bridge) 1%positive 0 () world query
           demo_stmt (prepared_world world text)).
  - reflexivity.
  - vm_compute. reflexivity.
Defined.

(** X11 on the demo plan. *)
Lemma one_tree_allocated_witness :
  (copy_addr world ∉ dom (heap world)) ∧
  dom (heap (prepared_world world text)) = {[copy_addr world]} ∪ dom (heap world).
Proof.
  apply (one_tree_allocated (BO := bridge) 1%positive 0 () world
           (prepared_world world text)).
  vm_compute. reflexivity.
Defined.

(** X12 on the demo plan. *)
Lemma session_survives_attempt_witness :
  search_path (prepared_world world text) = search_path world ∧
  GUCNestLevel (prepared_world world text) = GUCNestLevel world ∧
  search_path_stack (prepared_world world text) = search_path_stack world ∧
  guc_consistent (prepared_world world text) ∧
  ActivePortal (prepared_world world text) = ActivePortal world ∧
  duckdb_explain_analyze (prepared_world world text) = duckdb_explain_analyze world ∧
  pg_type (prepared_world world text) = pg_type world.
Proof.
  apply (session_survives_attempt (BO := bridge) 1%positive 0 () world
           (Some demo_stmt)).
  - cbn. lia.
  - vm_compute. reflexivity.
Defined.

(** X13 on the demo session, which has no active portal. *)
Lemma no_explain_no_prefix_witness :
  ∃ tree text',
    heap world !! 1%positive = Some tree ∧
    pgduckdb_pg_get_querydef (BridgeOps := bridge) tree false "" = Some text' ∧
    prepared_text (engine_calls (prepared_world world text)) = Some text' ∧
    two_columns = Prepare (BridgeOps := bridge) text text'.
Proof.
  apply (no_explain_no_prefix (BO := bridge) 1%positive () world).
  - intros portal Hportal. discriminate Hportal.
  - vm_compute. reflexivity.
Defined.

(** X14: the demo session under another [search_path], outside any nest
    level. *)
Lemma result_independent_of_search_path_witness :
  ∃ w'',
    DuckdbPrepare (BO := bridge) 1%positive () (with_guc "analytics, public" 0 [] world) =
      Ret (two_columns, text) w'' ∧
    engine_calls w'' = engine_calls (prepared_world world text) ∧
    elog_out w'' = elog_out (prepared_world world text).
Proof.
  apply (result_independent_of_search_path (BO := bridge) 1%positive () world).
  vm_compute. reflexivity.
Defined.

(** X15 on the demo session. *)
Lemma replanning_gives_same_text_witness :
  ∃ w2,
    DuckdbPrepare (BO := bridge) 1%positive () (prepared_world world text) =
      Ret (two_columns, text) w2 ∧
    prepared_text (engine_calls w2) =
      prepared_text (engine_calls (prepared_world world text)) ∧
    copy_addr (prepared_world world text) ≠ copy_addr world ∧
    heap w2 !! copy_addr world = heap (prepared_world world text) !! copy_addr world.
Proof.
  apply (replanning_gives_same_text (BO := bridge) 1%positive () world).
  vm_compute. reflexivity.
Defined.

(** X16 under an EXPLAIN portal with the toggle off. *)
Lemma prepared_text_is_deparsed_text_witness :
  ∃ tree text' query_string,
    heap (explain_world false) !! 1%positive = Some tree ∧
    pgduckdb_pg_get_querydef (BridgeOps := bridge) tree false "" = Some text' ∧
    (query_string = text' ∨
     query_string = "EXPLAIN " +:+ text' ∨
     query_string = "EXPLAIN ANALYZE " +:+ text') ∧
    two_columns = Prepare (BridgeOps := bridge) ("EXPLAIN " +:+ text) query_string ∧
    prepared_text
      (engine_calls (prepared_world (explain_world false) ("EXPLAIN " +:+ text))) =
      Some query_string.
Proof.
  apply (prepared_text_is_deparsed_text (BO := bridge) 1%positive ()
           (explain_world false)).
  vm_compute. reflexivity.
Defined.

End MoreRuns.
